(** * SmartAnalyzer: the adaptive request-pacing controller of [analyzer.py]

    A shallow embedding of [src/analyzer.py] (class [SmartAnalyzer]) together
    with the constants of [src/config.py] (class [RateLimitConfig]).

    Modelling conventions.
    - Python [float] values (delays, clock readings, rates) are exact
      rationals [Q]; every constant of the configuration is exactly
      representable.  Equalities between computed delays are therefore stated
      with [==] on [Q].
    - Python [int] counters are [Z]; [str] is [string]; [list] is [list].
    - A method is a program of type [Prog A]: it receives the object [self]
      and the outside [World] (wall clock, the analysis file on disk, the
      console) and gives back an outcome together with the updated object and
      world.  An outcome is a returned value, a raised exception, or
      [OutOfFuel] for a loop that was cut off by the fuel of the model.
    - [time.time()] is read from the world; between two observations the
      clock moves by an amount the world chooses ([pace]). *)

From Stdlib Require Import QArith Qround ZArith List String Bool Lia Lqa PeanoNat.
From Stdlib Require Import Ascii Permutation Sorted.
Import ListNotations.

Open Scope Q_scope.

(** ** Numbers *)

Definition Qltb (x y : Q) : bool := negb (Qle_bool y x).

(** Python's two-argument [max(a, b)]: [b] when [b > a], otherwise [a]. *)
Definition py_max (a b : Q) : Q := if Qltb a b then b else a.

(** Python's two-argument [min(a, b)]: [b] when [b < a], otherwise [a]. *)
Definition py_min (a b : Q) : Q := if Qltb b a then b else a.

(** Python's [int(x)] on a float: truncation towards zero. *)
Definition py_int (x : Q) : Z := Z.quot (Qnum x) (Zpos (Qden x)).

(** ** [config.py]: [RateLimitConfig] *)

Module config.
Module rate_limit.

Definition min_delay : Q := 3.           (* Minimum delay between requests (seconds) *)
Definition max_delay : Q := 8.           (* Maximum delay between requests (seconds) *)
Definition batch_size : Z := 10.         (* Items to process before longer break *)
Definition batch_delay : Q := 300.       (* Break between batches (5 minutes) *)
Definition error_delay : Q := 60.        (* Delay after errors (1 minute) *)
Definition rate_limit_delay : Q := 900.  (* Delay after rate limit hit (15 minutes) *)
(* Dynamic adjustment factors *)
Definition success_reduction : Q := 9 # 10.  (* 0.9 *)
Definition failure_increase : Q := 3 # 2.    (* 1.5 *)
Definition max_dynamic_delay : Q := 30.      (* Maximum dynamic delay *)

End rate_limit.
End config.

(** ** Data model *)

(** [@dataclass RateLimitEvent]. *)
Record RateLimitEvent : Type := mkEvent {
  timestamp : Q;
  event_type : string;
  delay_used : Q;
  response_time : Q;
  error_message : string
}.

(** The attributes of a [SmartAnalyzer] object ([analysis_file] is a constant
    path and is part of the world). *)
Record SmartAnalyzer : Type := mkAnalyzer {
  events : list RateLimitEvent;
  current_delay : Q;
  consecutive_successes : Z;
  consecutive_failures : Z;
  last_request_time : Q;
  rate_limit_detected : bool
}.

Definition set_events (v : list RateLimitEvent) (s : SmartAnalyzer) :=
  mkAnalyzer v (current_delay s) (consecutive_successes s)
             (consecutive_failures s) (last_request_time s) (rate_limit_detected s).
Definition set_current_delay (v : Q) (s : SmartAnalyzer) :=
  mkAnalyzer (events s) v (consecutive_successes s)
             (consecutive_failures s) (last_request_time s) (rate_limit_detected s).
Definition set_consecutive_successes (v : Z) (s : SmartAnalyzer) :=
  mkAnalyzer (events s) (current_delay s) v
             (consecutive_failures s) (last_request_time s) (rate_limit_detected s).
Definition set_consecutive_failures (v : Z) (s : SmartAnalyzer) :=
  mkAnalyzer (events s) (current_delay s) (consecutive_successes s)
             v (last_request_time s) (rate_limit_detected s).
Definition set_last_request_time (v : Q) (s : SmartAnalyzer) :=
  mkAnalyzer (events s) (current_delay s) (consecutive_successes s)
             (consecutive_failures s) v (rate_limit_detected s).
Definition set_rate_limit_detected (v : bool) (s : SmartAnalyzer) :=
  mkAnalyzer (events s) (current_delay s) (consecutive_successes s)
             (consecutive_failures s) (last_request_time s) v.

(** *** The analysis file

    The JSON object of [rate_analysis.json].  A key that is absent is [None];
    a key that is present carries a value of the type [_save_analysis] writes
    for it.  An event record is the dictionary unpacked into the keyword
    arguments of the [RateLimitEvent] constructor: the five known keys, each
    present or not, and the list of any other keys it has. *)
Record EventDict : Type := mkEventDict {
  d_timestamp : option Q;
  d_event_type : option string;
  d_delay_used : option Q;
  d_response_time : option Q;
  d_error_message : option string;
  d_other_keys : list string
}.

Record AnalysisDict : Type := mkAnalysisDict {
  j_current_delay : option Q;
  j_consecutive_successes : option Z;
  j_consecutive_failures : option Z;
  j_rate_limit_detected : option bool;
  j_last_updated : option Q;
  j_recent_events : option (list EventDict)
}.

Inductive AnalysisFile : Type :=
| NoFile                         (* [os.path.exists] is false *)
| NotJson                        (* the file exists, [json.load] raises *)
| Json (data : AnalysisDict).

(** *** Exceptions, console, world *)

Inductive Exception : Type :=
| JSONDecodeError
| TypeError
| OSError
| ValueError.

Inductive Message : Type :=
| WarnCouldNotSave (e : Exception)
| WarnCouldNotLoad (e : Exception)
| Waiting (reason : string) (delay : Q)
| ProgressBar (filled_length : Z) (progress remaining : Q)
| NewLine.

Record World : Type := mkWorld {
  clock : Q;                     (* wall clock at the last observation *)
  ticks : nat;                   (* number of observations so far *)
  pace : nat -> Q;               (* time that passes before observation n *)
  file : AnalysisFile;           (* sessions/rate_analysis.json *)
  writable : bool;               (* whether [open(..., 'w')] succeeds *)
  console : list Message         (* what was printed, oldest first *)
}.

Definition advance (d : Q) (w : World) : World :=
  mkWorld (clock w + d + pace w (ticks w)) (S (ticks w)) (pace w)
          (file w) (writable w) (console w).

Definition set_file (f : AnalysisFile) (w : World) : World :=
  mkWorld (clock w) (ticks w) (pace w) f (writable w) (console w).

Definition put_console (m : Message) (w : World) : World :=
  mkWorld (clock w) (ticks w) (pace w) (file w) (writable w) (console w ++ [m]).

(** ** Programs *)

Inductive Outcome (A : Type) : Type :=
| Return (a : A)
| Raise (e : Exception)
| OutOfFuel.
Arguments Return {A} a.
Arguments Raise {A} e.
Arguments OutOfFuel {A}.

Definition Prog (A : Type) : Type :=
  SmartAnalyzer -> World -> Outcome A * SmartAnalyzer * World.

Definition ret {A} (a : A) : Prog A := fun s w => (Return a, s, w).

Definition bind {A B} (p : Prog A) (k : A -> Prog B) : Prog B :=
  fun s w =>
    match p s w with
    | (Return a, s', w') => k a s' w'
    | (Raise e, s', w') => (Raise e, s', w')
    | (OutOfFuel, s', w') => (OutOfFuel, s', w')
    end.

Definition raise {A} (e : Exception) : Prog A := fun s w => (Raise e, s, w).

(** [try: body  except Exception as e: handler e]. *)
Definition try_except (body : Prog unit) (handler : Exception -> Prog unit) : Prog unit :=
  fun s w =>
    match body s w with
    | (Raise e, s', w') => handler e s' w'
    | r => r
    end.

Declare Scope prog_scope.
Delimit Scope prog_scope with prog.
Notation "x <- p ;; k" := (bind p (fun x => k))
  (at level 61, p at next level, right associativity) : prog_scope.
Notation "p ;; k" := (bind p (fun _ => k))
  (at level 61, right associativity) : prog_scope.
Open Scope prog_scope.

(** Reading and writing [self]. *)
Definition self_ {A} (f : SmartAnalyzer -> A) : Prog A := fun s w => (Return (f s), s, w).
Definition assign (f : SmartAnalyzer -> SmartAnalyzer) : Prog unit :=
  fun s w => (Return tt, f s, w).

(** The world's primitives. *)
Definition time_time : Prog Q :=
  fun s w => let w' := advance 0 w in (Return (clock w'), s, w').

Definition time_sleep (secs : Q) : Prog unit :=
  fun s w => if Qltb secs 0 then (Raise ValueError, s, w)
             else (Return tt, s, advance secs w).

Definition print (m : Message) : Prog unit :=
  fun s w => (Return tt, s, put_console m w).

Definition when (b : bool) (p : Prog unit) : Prog unit := if b then p else ret tt.

(** What a program leaves behind. *)
Definition outcome_of {A} (r : Outcome A * SmartAnalyzer * World) : Outcome A := fst (fst r).
Definition self_of {A} (r : Outcome A * SmartAnalyzer * World) : SmartAnalyzer := snd (fst r).
Definition world_of {A} (r : Outcome A * SmartAnalyzer * World) : World := snd r.

(** ** [SmartAnalyzer._adjust_delay] *)

Definition _adjust_delay : Prog unit :=
  consecutive_successes_ <- self_ consecutive_successes ;;
  consecutive_failures_ <- self_ consecutive_failures ;;
  (if (5 <=? consecutive_successes_)%Z then
     (* We're doing well, can reduce delay slightly *)
     assign (fun s => set_current_delay
                        (current_delay s * config.rate_limit.success_reduction) s) ;;
     assign (fun s => set_current_delay
                        (py_max (current_delay s) config.rate_limit.min_delay) s)
   else if (2 <=? consecutive_failures_)%Z then
     (* Having issues, increase delay *)
     assign (fun s => set_current_delay
                        (current_delay s * config.rate_limit.failure_increase) s) ;;
     assign (fun s => set_current_delay
                        (py_min (current_delay s) config.rate_limit.max_dynamic_delay) s)
   else ret tt) ;;
  (* Special handling for rate limits *)
  rate_limit_detected_ <- self_ rate_limit_detected ;;
  when (rate_limit_detected_ && (1 <=? consecutive_failures_)%Z)
       (assign (fun s => set_current_delay
                           (py_min config.rate_limit.max_dynamic_delay
                                   (current_delay s * 2)) s)).

(** ** [SmartAnalyzer._save_analysis] *)

(** [dataclasses.asdict] on an event. *)
Definition asdict (e : RateLimitEvent) : EventDict :=
  mkEventDict (Some (timestamp e)) (Some (event_type e)) (Some (delay_used e))
              (Some (response_time e)) (Some (error_message e)) [].

(** The slice [l[-n:]] for a positive [n]: the last [n] elements, or all of
    [l] when it has fewer. *)
Definition last_n {A} (n : nat) (l : list A) : list A := skipn (List.length l - n) l.

(** [with open(self.analysis_file, 'w') as f: json.dump(data, f, indent=2)]. *)
Definition json_dump (data : AnalysisDict) : Prog unit :=
  fun s w => if writable w then (Return tt, s, set_file (Json data) w)
             else (Raise OSError, s, w).

Definition _save_analysis : Prog unit :=
  try_except
    (s <- self_ (fun s => s) ;;
     last_updated <- time_time ;;
     let analysis_data :=
       {| j_current_delay := Some (current_delay s);
          j_consecutive_successes := Some (consecutive_successes s);
          j_consecutive_failures := Some (consecutive_failures s);
          j_rate_limit_detected := Some (rate_limit_detected s);
          j_last_updated := Some last_updated;
          (* Keep last 100 events *)
          j_recent_events := Some (map asdict (last_n 100 (events s))) |} in
     json_dump analysis_data)
    (fun e => print (WarnCouldNotSave e)).

(** ** [SmartAnalyzer._load_analysis] *)

(** [d.get(key, default)]. *)
Definition dict_get {A} (entry : option A) (default : A) : A :=
  match entry with Some v => v | None => default end.

(** The dataclass constructor called with keyword arguments: an unexpected
    key or a missing required field is a [TypeError]; [response_time] and
    [error_message] have defaults. *)
Definition RateLimitEvent_kwargs (d : EventDict) : Prog RateLimitEvent :=
  match d_other_keys d, d_timestamp d, d_event_type d, d_delay_used d with
  | [], Some ts, Some ty, Some du =>
      ret (mkEvent ts ty du (dict_get (d_response_time d) 0)
                   (dict_get (d_error_message d) EmptyString))
  | _, _, _, _ => raise TypeError
  end.

(** The comprehension [[f(x) for x in l]] for an [f] with effects. *)
Fixpoint for_each {A B} (f : A -> Prog B) (l : list A) : Prog (list B) :=
  match l with
  | [] => ret []
  | x :: l' => y <- f x ;; ys <- for_each f l' ;; ret (y :: ys)
  end.

Definition os_path_exists : Prog bool :=
  fun s w => (Return (match file w with NoFile => false | _ => true end), s, w).

(** [with open(self.analysis_file, 'r') as f: data = json.load(f)]. *)
Definition json_load : Prog AnalysisDict :=
  fun s w => match file w with
             | Json data => (Return data, s, w)
             | NotJson => (Raise JSONDecodeError, s, w)
             | NoFile => (Raise OSError, s, w)
             end.

Definition _load_analysis : Prog unit :=
  try_except
    (file_exists <- os_path_exists ;;
     when file_exists
       (data <- json_load ;;
        (* Only load recent data (less than 24 hours old) *)
        now <- time_time ;;
        when (Qltb (now - dict_get (j_last_updated data) 0) 86400)
          (assign (set_current_delay
                     (dict_get (j_current_delay data) config.rate_limit.min_delay)) ;;
           assign (set_consecutive_successes
                     (dict_get (j_consecutive_successes data) 0%Z)) ;;
           assign (set_consecutive_failures
                     (dict_get (j_consecutive_failures data) 0%Z)) ;;
           assign (set_rate_limit_detected
                     (dict_get (j_rate_limit_detected data) false)) ;;
           (* Load recent events *)
           let recent_events := dict_get (j_recent_events data) [] in
           loaded <- for_each RateLimitEvent_kwargs recent_events ;;
           assign (set_events loaded))))
    (fun e => print (WarnCouldNotLoad e)).

(** ** [SmartAnalyzer.__init__] *)

Definition __init__ : Prog unit :=
  assign (set_events []) ;;
  assign (set_current_delay config.rate_limit.min_delay) ;;
  assign (set_consecutive_successes 0%Z) ;;
  assign (set_consecutive_failures 0%Z) ;;
  assign (set_last_request_time 0) ;;
  assign (set_rate_limit_detected false) ;;
  (* Load previous analysis if available *)
  _load_analysis.

(** The object [__init__] builds before it looks at the file: the default
    fresh state. *)
Definition fresh : SmartAnalyzer :=
  mkAnalyzer [] config.rate_limit.min_delay 0%Z 0%Z 0 false.

(** [SmartAnalyzer()]: the constructed object and the world after it. *)
Definition SmartAnalyzer_new (w : World) : Outcome unit * SmartAnalyzer * World :=
  __init__ fresh w.

(** ** [SmartAnalyzer.record_event] *)

Definition record_event (event_type_ : string) (delay_used_ : Q)
           (response_time_ : Q) (error_message_ : string) : Prog unit :=
  now <- time_time ;;
  let event := mkEvent now event_type_ delay_used_ response_time_ error_message_ in
  assign (fun s => set_events (events s ++ [event]) s) ;;
  (* Update counters based on event type *)
  (if (event_type_ =? "success")%string then
     assign (fun s => set_consecutive_successes (consecutive_successes s + 1)%Z s) ;;
     assign (set_consecutive_failures 0%Z) ;;
     assign (set_rate_limit_detected false)
   else if existsb (String.eqb event_type_) ["rate_limit"; "error"; "timeout"]%string then
     assign (fun s => set_consecutive_failures (consecutive_failures s + 1)%Z s) ;;
     assign (set_consecutive_successes 0%Z) ;;
     when (event_type_ =? "rate_limit")%string
          (assign (set_rate_limit_detected true))
   else ret tt) ;;
  (* Adjust delay dynamically *)
  _adjust_delay ;;
  (* Save analysis periodically *)
  n <- self_ (fun s => List.length (events s)) ;;
  when (n mod 10 =? 0)%nat _save_analysis.

(** ** [SmartAnalyzer.get_next_delay]

    [jitter] is the value drawn by [random.uniform(0.8, 1.2)]. *)
Definition get_next_delay (jitter : Q) : Prog Q :=
  base_delay <- self_ current_delay ;;
  (* Add randomization to avoid pattern detection *)
  let calculated_delay := base_delay * jitter in
  (* Additional delay if rate limit was recently detected *)
  rate_limit_detected_ <- self_ rate_limit_detected ;;
  let calculated_delay :=
    if rate_limit_detected_ then calculated_delay * 2 else calculated_delay in
  (* Ensure we don't exceed maximum delay *)
  ret (py_min calculated_delay config.rate_limit.max_dynamic_delay).

(** ** [SmartAnalyzer.get_status_report] *)

(** The dictionary the report returns; a key the branch does not write is
    [None]. *)
Record StatusReport : Type := mkReport {
  status : string;
  message : string;
  r_success_rate : option Q;
  r_current_delay : Q;
  r_avg_delay : option Q;
  r_consecutive_successes : option Z;
  r_consecutive_failures : option Z;
  r_rate_limit_detected : bool;
  r_events_last_hour : option nat
}.

(** [[e for e in l if e.timestamp > time.time() - 3600]]: the clock is read
    once for every element. *)
Fixpoint last_hour (l : list RateLimitEvent) : Prog (list RateLimitEvent) :=
  match l with
  | [] => ret []
  | e :: l' =>
      now <- time_time ;;
      rest <- last_hour l' ;;
      ret (if Qltb (now - 3600) (timestamp e) then e :: rest else rest)
  end.

Definition is_success (e : RateLimitEvent) : bool := (event_type e =? "success")%string.

(** [len(a) / len(b)] and [x / len(b)]: true division. *)
Definition len {A} (l : list A) : Q := inject_Z (Z.of_nat (List.length l)).

(** [sum(e.delay_used for e in l)]. *)
Definition sum_delay_used (l : list RateLimitEvent) : Q :=
  fold_left (fun acc e => acc + delay_used e) l 0.

Definition get_status_report : Prog StatusReport :=
  evs <- self_ events ;;
  recent_events <- last_hour evs ;;       (* Last hour *)
  s <- self_ (fun s => s) ;;
  match recent_events with
  | [] =>
      ret {| status := "no_data";
             message := "No recent activity to analyze";
             r_success_rate := None;
             r_current_delay := current_delay s;
             r_avg_delay := None;
             r_consecutive_successes := None;
             r_consecutive_failures := None;
             r_rate_limit_detected := false;
             r_events_last_hour := None |}
  | _ :: _ =>
      let success_rate := len (filter is_success recent_events) / len recent_events in
      let avg_delay := sum_delay_used recent_events / len recent_events in
      let '(status_, message_) :=
        if rate_limit_detected s then
          ("rate_limited", "Rate limiting detected - using conservative delays")
        else if Qltb (9 # 10) success_rate then
          ("optimal", "Operating at optimal speed")
        else if Qltb (7 # 10) success_rate then
          ("cautious", "Some issues detected - using moderate delays")
        else
          ("problematic", "High failure rate - using maximum delays") in
      ret {| status := status_;
             message := message_;
             r_success_rate := Some success_rate;
             r_current_delay := current_delay s;
             r_avg_delay := Some avg_delay;
             r_consecutive_successes := Some (consecutive_successes s);
             r_consecutive_failures := Some (consecutive_failures s);
             r_rate_limit_detected := rate_limit_detected s;
             r_events_last_hour := Some (List.length recent_events) |}
  end%string.

(** ** [SmartAnalyzer.wait_with_progress] *)

(** The [while] loop of the progress bar; [fuel] bounds its iterations. *)
Fixpoint progress_loop (fuel : nat) (start_time delay : Q) : Prog unit :=
  match fuel with
  | O => fun s w => (OutOfFuel, s, w)
  | S fuel' =>
      t <- time_time ;;
      if Qltb (t - start_time) delay then
        t' <- time_time ;;
        let elapsed := t' - start_time in
        let remaining := delay - elapsed in
        let progress := elapsed / delay * 100 in
        (* Simple progress bar *)
        let bar_length := 30 in
        let filled_length := py_int (bar_length * progress / 100) in
        print (ProgressBar filled_length progress remaining) ;;
        time_sleep 1 ;;
        if Qle_bool remaining 0 then ret tt
        else progress_loop fuel' start_time delay
      else ret tt
  end.

Definition wait_with_progress (fuel : nat) (delay : Q) (reason : string) : Prog unit :=
  (* Enforce minimum spacing from last request *)
  last_request_time_ <- self_ last_request_time ;;
  delay <- (if Qltb 0 last_request_time_ then
              now <- time_time ;;
              let time_since_last := now - last_request_time_ in
              let min_spacing := config.rate_limit.min_delay in
              if Qltb time_since_last min_spacing then
                let additional_delay := min_spacing - time_since_last in
                ret (py_max delay additional_delay)
              else ret delay
            else ret delay) ;;
  if Qle_bool delay 0 then
    now <- time_time ;;
    assign (set_last_request_time now)
  else
    print (Waiting reason delay) ;;
    (* Show progress for longer delays *)
    (if Qltb 5 delay then
       start_time <- time_time ;;
       progress_loop fuel start_time delay ;;
       print NewLine                      (* New line after progress *)
     else
       time_sleep delay) ;;
    now <- time_time ;;
    assign (set_last_request_time now).

(** ** Sequences of recorded outcomes *)

(** The arguments of one [record_event] call. *)
Record Call : Type := mkCall {
  c_event_type : string;
  c_delay_used : Q;
  c_response_time : Q;
  c_error_message : string
}.

Definition record_call (c : Call) : Prog unit :=
  record_event (c_event_type c) (c_delay_used c) (c_response_time c) (c_error_message c).

(** The calls of [calls], one after the other. *)
Fixpoint record_events (calls : list Call) : Prog unit :=
  match calls with
  | [] => ret tt
  | c :: calls' => record_call c ;; record_events calls'
  end.

(** The four documented outcome kinds. *)
Definition outcome_kinds : list string := ["success"; "rate_limit"; "error"; "timeout"]%string.

(** ** Predicates on objects, worlds and snapshots *)

(** [min_delay <= current_delay <= max_dynamic_delay]. *)
Definition delay_in_range (s : SmartAnalyzer) : Prop :=
  config.rate_limit.min_delay <= current_delay s /\
  current_delay s <= config.rate_limit.max_dynamic_delay.

Definition exactly_one_nonzero (s : SmartAnalyzer) : Prop :=
  (consecutive_successes s <> 0 /\ consecutive_failures s = 0)%Z \/
  (consecutive_successes s = 0 /\ consecutive_failures s <> 0)%Z.

Definition not_both_nonzero (s : SmartAnalyzer) : Prop :=
  (consecutive_successes s = 0 \/ consecutive_failures s = 0)%Z.

(** No outcome recorded yet. *)
Definition idle (s : SmartAnalyzer) : Prop :=
  (consecutive_successes s = 0 /\ consecutive_failures s = 0)%Z.

(** A run of successes, or a run of failures, is under way. *)
Definition counting (s : SmartAnalyzer) : Prop :=
  (0 < consecutive_successes s /\ consecutive_failures s = 0)%Z \/
  (consecutive_successes s = 0 /\ 0 < consecutive_failures s)%Z.

(** A world whose clock never runs backwards. *)
Definition monotone (w : World) : Prop := forall n, 0 <= pace w n.

(** The key is in the dictionary. *)
Definition present {A} (entry : option A) : Prop := entry <> None.

(** A snapshot as [_save_analysis] writes them: every key present, every
    event record with its five fields and nothing else. *)
Definition well_formed_event (d : EventDict) : Prop :=
  present (d_timestamp d) /\ present (d_event_type d) /\ present (d_delay_used d) /\
  present (d_response_time d) /\ present (d_error_message d) /\ d_other_keys d = [].

Definition well_formed (data : AnalysisDict) : Prop :=
  present (j_current_delay data) /\ present (j_consecutive_successes data) /\
  present (j_consecutive_failures data) /\ present (j_rate_limit_detected data) /\
  present (j_last_updated data) /\ present (j_recent_events data) /\
  Forall well_formed_event (dict_get (j_recent_events data) []).

(** ** The methods, step by step

    Closed forms of what the methods compute, each proved equal to the
    method below. *)

(** The delay [_adjust_delay] computes from the attributes it reads. *)
Definition adjusted (s : SmartAnalyzer) : Q :=
  let d :=
    if (5 <=? consecutive_successes s)%Z then
      py_max (current_delay s * config.rate_limit.success_reduction)
             config.rate_limit.min_delay
    else if (2 <=? consecutive_failures s)%Z then
      py_min (current_delay s * config.rate_limit.failure_increase)
             config.rate_limit.max_dynamic_delay
    else current_delay s in
  if rate_limit_detected s && (1 <=? consecutive_failures s)%Z
  then py_min config.rate_limit.max_dynamic_delay (d * 2) else d.

(** The counter and flag update of [record_event], as one step on [self]. *)
Definition counted (ty : string) (s : SmartAnalyzer) : SmartAnalyzer :=
  if (ty =? "success")%string then
    set_rate_limit_detected false
      (set_consecutive_failures 0%Z
         (set_consecutive_successes (consecutive_successes s + 1)%Z s))
  else if existsb (String.eqb ty) ["rate_limit"; "error"; "timeout"]%string then
    let s' := set_consecutive_successes 0%Z
                (set_consecutive_failures (consecutive_failures s + 1)%Z s) in
    if (ty =? "rate_limit")%string then set_rate_limit_detected true s' else s'
  else s.

(** What [_save_analysis] writes when the file can be opened. *)
Definition snapshot_of (s : SmartAnalyzer) (saved_at : Q) : AnalysisDict :=
  {| j_current_delay := Some (current_delay s);
     j_consecutive_successes := Some (consecutive_successes s);
     j_consecutive_failures := Some (consecutive_failures s);
     j_rate_limit_detected := Some (rate_limit_detected s);
     j_last_updated := Some saved_at;
     j_recent_events := Some (map asdict (last_n 100 (events s))) |}.

(** The four scalar attributes as [_load_analysis] assigns them. *)
Definition with_scalars (data : AnalysisDict) (s : SmartAnalyzer) : SmartAnalyzer :=
  set_rate_limit_detected (dict_get (j_rate_limit_detected data) false)
    (set_consecutive_failures (dict_get (j_consecutive_failures data) 0%Z)
       (set_consecutive_successes (dict_get (j_consecutive_successes data) 0%Z)
          (set_current_delay
             (dict_get (j_current_delay data) config.rate_limit.min_delay) s))).

(** The events [last_hour] keeps, with the clock reading each one is compared
    against. *)
Fixpoint window (w : World) (l : list RateLimitEvent) : list RateLimitEvent :=
  match l with
  | [] => []
  | e :: l' =>
      let w' := advance 0 w in
      if Qltb (clock w' - 3600) (timestamp e) then e :: window w' l' else window w' l'
  end.

(** The part of [wait_with_progress] after the floor has been applied. *)
Definition blocking (fuel : nat) (delay : Q) (reason : string) : Prog unit :=
  if Qle_bool delay 0 then
    now <- time_time ;;
    assign (set_last_request_time now)
  else
    print (Waiting reason delay) ;;
    (if Qltb 5 delay then
       start_time <- time_time ;;
       progress_loop fuel start_time delay ;;
       print NewLine
     else
       time_sleep delay) ;;
    now <- time_time ;;
    assign (set_last_request_time now).

(** ** Concrete objects, worlds and snapshots *)

(** A concrete world for examples: no analysis file, a clock that stands at
    1000 between observations. *)
Definition still_world : World := mkWorld 1000 0 (fun _ => 0) NoFile true [].

(** A controller that has recorded 101 successes. *)
Definition after_101 : Outcome unit * SmartAnalyzer * World :=
  record_events (repeat (mkCall "success" 0 0 "") 101) fresh still_world.

(** A snapshot whose only event record has no [timestamp]. *)
Definition broken_snapshot : AnalysisDict :=
  {| j_current_delay := Some 25;
     j_consecutive_successes := Some 3%Z;
     j_consecutive_failures := Some 4%Z;
     j_rate_limit_detected := Some true;
     j_last_updated := Some 1000;
     j_recent_events :=
       Some [mkEventDict None (Some "success"%string) (Some 0) (Some 0)
                         (Some EmptyString) []] |}.

Definition broken_world : World := set_file (Json broken_snapshot) still_world.

(** A well-formed snapshot, one second old, with a delay of 100 seconds and
    both counters nonzero. *)
Definition odd_snapshot : AnalysisDict :=
  {| j_current_delay := Some 100;
     j_consecutive_successes := Some 2%Z;
     j_consecutive_failures := Some 3%Z;
     j_rate_limit_detected := Some false;
     j_last_updated := Some 999;
     j_recent_events := Some [] |}.

Definition odd_world : World := set_file (Json odd_snapshot) still_world.

(** A controller in the middle of a failure run: two events in the log, the
    delay raised to 18, two failures counted, the flag set. *)
Definition seasoned : SmartAnalyzer :=
  mkAnalyzer [mkEvent 990 "rate_limit" 900 0 "Profile load rate limited";
              mkEvent 995 "error" 6 (1 # 2) "boom"]
             18 0%Z 2%Z 995 true.

(** A world whose clock stands at [t] and whose analysis file is [f]. *)
Definition world_at (t : Q) (f : AnalysisFile) : World :=
  mkWorld t 0 (fun _ => 0) f true [].

(** A world in which the analysis file cannot be opened for writing. *)
Definition read_only_world : World := mkWorld 1000 0 (fun _ => 0) NoFile false [].



(** ** [SmartAnalyzer.should_take_batch_break] and [get_batch_delay] *)

Definition should_take_batch_break (items_processed : Z) : Prog bool :=
  ret ((0 <? items_processed)%Z &&
       (items_processed mod config.rate_limit.batch_size =? 0)%Z).

Definition get_batch_delay : Prog Q :=
  let base_delay := config.rate_limit.batch_delay in
  (* Increase batch delay if we're seeing rate limits *)
  rate_limit_detected_ <- self_ rate_limit_detected ;;
  if rate_limit_detected_ then ret (base_delay * (3 # 2))
  else
    (* Decrease if we're having consistent success *)
    consecutive_successes_ <- self_ consecutive_successes ;;
    if (20 <? consecutive_successes_)%Z then ret (base_delay * (8 # 10))
    else ret base_delay.

(** ** [config.py]: [AppConfig.get_session_file] *)

Module AppConfig.

(** [DownloadConfig.sessions_dir]. *)
Definition sessions_dir : string := "sessions".

Definition startswith_sep (b : string) : bool :=
  match b with
  | String c _ => Ascii.eqb c "/"%char
  | EmptyString => false
  end.

Fixpoint endswith_sep (a : string) : bool :=
  match a with
  | EmptyString => false
  | String c EmptyString => Ascii.eqb c "/"%char
  | String _ a' => endswith_sep a'
  end.

(** [os.path.join(a, b)] of [posixpath]: an absolute [b] replaces [a];
    otherwise [b] is appended, after a separator unless [a] is empty or ends
    with one. *)
Definition os_path_join (a b : string) : string :=
  if startswith_sep b then b
  else if (a =? "")%string || endswith_sep a then (a ++ b)%string
  else (a ++ "/" ++ b)%string.

Definition get_session_file (username : string) : string :=
  os_path_join sessions_dir (username ++ "_session")%string.

End AppConfig.

(** ** [crawler.py]: [ContentItem] and [InstagramCrawler._apply_limits] *)

Module crawler.

(** [@dataclass ContentItem]; [Metadata] stands for the dictionary of
    additional metadata, which [_apply_limits] never looks into. *)
Record ContentItem (Metadata : Type) : Type := mkContentItem {
  shortcode : string;
  url : string;
  content_type : string;
  caption : string;
  timestamp : Q;
  filename : string;
  metadata : Metadata
}.
Arguments mkContentItem {Metadata}.
Arguments shortcode {Metadata}.
Arguments url {Metadata}.
Arguments content_type {Metadata}.
Arguments caption {Metadata}.
Arguments timestamp {Metadata}.
Arguments filename {Metadata}.
Arguments metadata {Metadata}.

(** The [limits] dictionary: [limits.get('total')] is [None] both for a
    missing key and for the value [None] (the answer 'all');
    [limits.get('newest_first', False)]. *)
Record Limits : Type := mkLimits {
  total : option Z;
  newest_first : option bool
}.

(** Truth value of [limits.get('total')]: an integer other than zero. *)
Definition total_is_set (limits : Limits) : bool :=
  match total limits with
  | Some n => negb (n =? 0)%Z
  | None => false
  end.

(** The slice [l[:n]]: the first [n] elements, and for a negative [n] all but
    the last [-n]. *)
Definition slice_to {A} (n : Z) (l : list A) : list A :=
  if (0 <=? n)%Z then firstn (Z.to_nat n) l
  else firstn (List.length l - Z.to_nat (- n)) l.

(** [l.sort(key=lambda x: x.timestamp, reverse=True)]: newest first, items
    with the same timestamp in the order they had (the sort is stable). *)
Fixpoint insert_newest {M} (x : ContentItem M) (l : list (ContentItem M))
  : list (ContentItem M) :=
  match l with
  | [] => [x]
  | y :: l' => if Qltb (timestamp x) (timestamp y) then y :: insert_newest x l'
               else x :: y :: l'
  end.

Fixpoint sort_newest_first {M} (l : list (ContentItem M)) : list (ContentItem M) :=
  match l with
  | [] => []
  | x :: l' => insert_newest x (sort_newest_first l')
  end.

Definition _apply_limits {M} (content_items : list (ContentItem M)) (limits : Limits)
  : list (ContentItem M) :=
  match content_items with
  | [] => content_items
  | _ :: _ =>
      (* Sort by timestamp if newest_first is requested *)
      let content_items :=
        if dict_get (newest_first limits) false
        then sort_newest_first content_items else content_items in
      (* Apply total limit *)
      if total_is_set limits
      then slice_to (dict_get (total limits) 0%Z) content_items
      else content_items
  end.

(** [post_type] as [_crawl_posts] determines it; [is_reel] is [None] when the
    post has no such attribute. *)
Definition post_type_of (is_video : bool) (is_reel : option bool) : string :=
  if is_video then
    if dict_get is_reel false then "reel" else "video"
  else "photo".

Definition contains (x : string) (l : list string) : bool := existsb (String.eqb x) l.

(** [any(t in content_types for t in ['photos', 'videos', 'reels'])]: the
    condition under which [crawl_profile] calls [_crawl_posts]. *)
Definition asks_for_posts (content_types : list string) : bool :=
  existsb (fun t => contains t content_types) ["photos"; "videos"; "reels"]%string.

(** The test of [_crawl_posts] after which a post is skipped ([continue]). *)
Definition skips_post (post_type : string) (content_types : list string) : bool :=
  negb (contains post_type content_types) && negb (asks_for_posts content_types).

End crawler.

(** ** Further definitions for the statements *)

(** The event types of a list of calls that [record_event] counts. *)
Definition is_failure_kind (ty : string) : bool :=
  existsb (String.eqb ty) ["rate_limit"; "error"; "timeout"]%string.

(** The number of elements at the end of [l] that satisfy [p]. *)
Fixpoint leading {A} (p : A -> bool) (l : list A) : nat :=
  match l with
  | x :: l' => if p x then S (leading p l') else O
  | [] => O
  end.

Definition trailing {A} (p : A -> bool) (l : list A) : nat := leading p (rev l).

(** The calls [n] times over. *)
Definition times (n : nat) (c : Call) : list Call := repeat c n.

(** Counters that are not negative, with the flag only set during a run of
    failures. *)
Definition consistent (s : SmartAnalyzer) : Prop :=
  (0 <= consecutive_successes s)%Z /\ (0 <= consecutive_failures s)%Z /\
  not_both_nonzero s /\
  (rate_limit_detected s = true ->
   consecutive_successes s = 0%Z /\ (1 <= consecutive_failures s)%Z).

(** [x] is at least as new as [y]. *)
Definition newer_or_same {M} (x y : crawler.ContentItem M) : Prop :=
  crawler.timestamp y <= crawler.timestamp x.

(** The items whose timestamp is [q]. *)
Definition same_time {M} (q : Q) (x : crawler.ContentItem M) : bool :=
  Qeq_bool (crawler.timestamp x) q.

(** Three items crawled in this order, the second one the newest. *)
Definition three_items : list (crawler.ContentItem unit) :=
  [crawler.mkContentItem "a" "u/a" "photo" "" 100 "p_a" tt;
   crawler.mkContentItem "b" "u/b" "video" "" 300 "p_b" tt;
   crawler.mkContentItem "c" "u/c" "photo" "" 200 "p_c" tt]%string.

(** The content types the menu of the command line can produce. *)
Definition menu_types : list string := ["photos"; "reels"; "videos"; "stories"]%string.

(** [x] to the power [n]. *)
Fixpoint Qpow (x : Q) (n : nat) : Q :=
  match n with
  | O => 1
  | S n' => x * Qpow x n'
  end.

(** * Properties *)

(** ** Comparisons *)

Lemma Qltb_lt (x y : Q) : Qltb x y = true <-> x < y.
Proof.
  unfold Qltb. rewrite negb_true_iff. split; intro H.
  - apply Qnot_le_lt. intro L. apply Qle_bool_iff in L. congruence.
  - destruct (Qle_bool y x) eqn:E; [|reflexivity].
    apply Qle_bool_iff in E. exfalso. exact (Qlt_not_le _ _ H E).
Qed.

Lemma Qltb_ge (x y : Q) : Qltb x y = false <-> y <= x.
Proof.
  unfold Qltb. rewrite negb_false_iff. apply Qle_bool_iff.
Qed.

Lemma Qle_bool_gt (x y : Q) : Qle_bool x y = false <-> y < x.
Proof.
  rewrite <- Qltb_lt. unfold Qltb. now rewrite negb_true_iff.
Qed.

Lemma py_max_spec (a b : Q) :
  (a < b /\ py_max a b = b) \/ (b <= a /\ py_max a b = a).
Proof.
  unfold py_max. destruct (Qltb a b) eqn:E.
  - left. now apply Qltb_lt in E.
  - right. now apply Qltb_ge in E.
Qed.

Lemma py_min_spec (a b : Q) :
  (b < a /\ py_min a b = b) \/ (a <= b /\ py_min a b = a).
Proof.
  unfold py_min. destruct (Qltb b a) eqn:E.
  - left. now apply Qltb_lt in E.
  - right. now apply Qltb_ge in E.
Qed.

(** ** What the helpers do to [self] *)

Ltac run := unfold bind, ret, self_, assign, when, print, raise; cbn.

Lemma _save_analysis_self (s : SmartAnalyzer) (w : World) :
  outcome_of (_save_analysis s w) = Return tt /\ self_of (_save_analysis s w) = s.
Proof.
  unfold _save_analysis, try_except, json_dump, time_time. run.
  destruct (writable w); cbn; auto.
Qed.

Lemma _adjust_delay_run (s : SmartAnalyzer) (w : World) :
  _adjust_delay s w = (Return tt, set_current_delay (adjusted s) s, w).
Proof.
  unfold _adjust_delay, adjusted. run.
  destruct s as [ev cd cs cf lr rl]; cbn.
  destruct (5 <=? cs)%Z; [|destruct (2 <=? cf)%Z]; cbn;
    destruct (rl && (1 <=? cf)%Z); cbn; reflexivity.
Qed.

Lemma adjusted_in_range (s : SmartAnalyzer) :
  delay_in_range s ->
  config.rate_limit.min_delay <= adjusted s <= config.rate_limit.max_dynamic_delay.
Proof.
  unfold delay_in_range, adjusted,
    config.rate_limit.min_delay, config.rate_limit.max_dynamic_delay,
    config.rate_limit.success_reduction, config.rate_limit.failure_increase.
  intros [Hlo Hhi].
  set (cd := current_delay s) in *.
  destruct (5 <=? consecutive_successes s)%Z;
    [destruct (py_max_spec (cd * (9 # 10)) 3) as [[L ->] | [L ->]]
    |destruct (2 <=? consecutive_failures s)%Z;
     [destruct (py_min_spec (cd * (3 # 2)) 30) as [[L ->] | [L ->]]|]];
    match goal with
    | |- context [if ?b then _ else _] => destruct b
    end;
    try match goal with
    | |- context [py_min ?a ?b] =>
        destruct (py_min_spec a b) as [[L' ->] | [L' ->]]
    end; lra.
Qed.

Arguments _adjust_delay : simpl never.
Arguments _save_analysis : simpl never.

Lemma record_event_run (ty : string) (d r : Q) (m : string)
      (s : SmartAnalyzer) (w : World) :
  let s1 := counted ty (set_events
                          (events s ++ [mkEvent (clock (advance 0 w)) ty d r m]) s) in
  outcome_of (record_event ty d r m s w) = Return tt /\
  self_of (record_event ty d r m s w) = set_current_delay (adjusted s1) s1.
Proof.
  unfold record_event, counted.
  destruct (ty =? "success")%string;
    [|destruct (existsb (String.eqb ty) ["rate_limit"; "error"; "timeout"]%string);
      [destruct (ty =? "rate_limit")%string|]];
    unfold time_time; run; rewrite _adjust_delay_run; cbn;
    match goal with
    | |- context [if ?b then _save_analysis else _] => destruct b
    end; cbn; auto;
    match goal with
    | |- context [_save_analysis ?s ?w] =>
        destruct (_save_analysis_self s w) as [Ho Hs];
        destruct (_save_analysis s w) as [[o s'] w']; cbn in *; subst; auto
    end.
Qed.

Lemma counted_range (ty : string) (s : SmartAnalyzer) :
  current_delay (counted ty s) = current_delay s.
Proof.
  unfold counted.
  destruct (ty =? "success")%string; [reflexivity|].
  destruct (existsb _ _); [|reflexivity].
  destruct (ty =? "rate_limit")%string; reflexivity.
Qed.

Lemma record_event_in_range (ty : string) (d r : Q) (m : string)
      (s : SmartAnalyzer) (w : World) :
  delay_in_range s -> delay_in_range (self_of (record_event ty d r m s w)).
Proof.
  intros H. destruct (record_event_run ty d r m s w) as [_ ->].
  unfold delay_in_range at 1. cbn.
  apply adjusted_in_range. unfold delay_in_range.
  now rewrite counted_range.
Qed.

Lemma record_events_in_range (calls : list Call) (s : SmartAnalyzer) (w : World) :
  delay_in_range s ->
  outcome_of (record_events calls s w) = Return tt /\
  delay_in_range (self_of (record_events calls s w)).
Proof.
  revert s w. induction calls as [|c calls IH]; intros s w H; cbn.
  - auto.
  - unfold bind, record_call.
    pose proof (record_event_run (c_event_type c) (c_delay_used c)
                  (c_response_time c) (c_error_message c) s w) as [Ho _].
    pose proof (record_event_in_range (c_event_type c) (c_delay_used c)
                  (c_response_time c) (c_error_message c) s w H) as Hr.
    destruct (record_event _ _ _ _ s w) as [[o s'] w']; cbn in *; subst o.
    now apply IH.
Qed.

Lemma fresh_in_range : delay_in_range fresh.
Proof. unfold delay_in_range; cbn. split; [apply Qle_refl | discriminate]. Qed.

(** With no analysis file the constructor leaves the default fresh state. *)
Lemma SmartAnalyzer_new_no_file (w : World) :
  file w = NoFile ->
  outcome_of (SmartAnalyzer_new w) = Return tt /\ self_of (SmartAnalyzer_new w) = fresh.
Proof.
  intros H. unfold SmartAnalyzer_new, __init__, _load_analysis, try_except, os_path_exists.
  run. rewrite H. cbn. auto.
Qed.

(** C1. Started from the default fresh state (delay 3.0, no snapshot loaded),
    after every call of every sequence of [record_event] calls the call has
    returned and [min_delay <= current_delay <= max_dynamic_delay], that is
    [3 <= current_delay <= 30]: the bound holds after each prefix of the
    sequence. *)
Theorem C1_delay_stays_in_range (calls : list Call) (w : World) (k : nat) :
  let r := record_events (firstn k calls) fresh w in
  outcome_of r = Return tt /\
  config.rate_limit.min_delay <= current_delay (self_of r) /\
  current_delay (self_of r) <= config.rate_limit.max_dynamic_delay /\
  config.rate_limit.min_delay = 3 /\ config.rate_limit.max_dynamic_delay = 30.
Proof.
  destruct (record_events_in_range (firstn k calls) fresh w fresh_in_range)
    as [Ho [Hlo Hhi]].
  cbv zeta. auto.
Qed.

(** C2. From the fresh state (delay 3.0), a [rate_limit] event doubles the
    delay to 6.0 already (flag set, one failure); the following [error] event
    keeps the flag, multiplies by the failure-increase factor 1.5 and then
    doubles, each product clamped at 30.0: 6.0 * 1.5 = 9.0, then 18.0. *)
Theorem C2_rate_limit_then_error (w : World) (d1 r1 d2 r2 : Q) (m1 m2 : string) :
  let a := record_event "rate_limit" d1 r1 m1 fresh w in
  let b := record_event "error" d2 r2 m2 (self_of a) (world_of a) in
  rate_limit_detected (self_of a) = true /\
  current_delay (self_of a) =
    py_min config.rate_limit.max_dynamic_delay (current_delay fresh * 2) /\
  current_delay (self_of a) == 6 /\
  rate_limit_detected (self_of b) = true /\
  current_delay (self_of b) =
    py_min config.rate_limit.max_dynamic_delay
      (py_min (current_delay (self_of a) * config.rate_limit.failure_increase)
              config.rate_limit.max_dynamic_delay * 2) /\
  current_delay (self_of b) == 18.
Proof.
  cbv zeta.
  destruct (record_event_run "rate_limit" d1 r1 m1 fresh w) as [_ Ha].
  rewrite Ha.
  match goal with
  | |- context [record_event "error" d2 r2 m2 ?s ?w'] =>
      destruct (record_event_run "error" d2 r2 m2 s w') as [_ Hb]; rewrite Hb
  end.
  cbn. repeat split; reflexivity.
Qed.

(** ** The two counters *)

Lemma counting_exactly_one (s : SmartAnalyzer) : counting s -> exactly_one_nonzero s.
Proof. unfold counting, exactly_one_nonzero. lia. Qed.

Lemma record_event_counting (ty : string) (d r : Q) (m : string)
      (s : SmartAnalyzer) (w : World) :
  In ty outcome_kinds -> idle s \/ counting s ->
  counting (self_of (record_event ty d r m s w)).
Proof.
  intros Hty Hs. destruct (record_event_run ty d r m s w) as [_ ->].
  unfold counting, idle in *. cbn.
  destruct Hty as [<- | [<- | [<- | [<- | []]]]]; cbn; lia.
Qed.

Lemma record_events_counting (calls : list Call) (s : SmartAnalyzer) (w : World) :
  Forall (fun c => In (c_event_type c) outcome_kinds) calls ->
  counting s -> counting (self_of (record_events calls s w)).
Proof.
  intros H. revert s w.
  induction H as [|c calls Hc _ IH]; intros s w Hs; cbn.
  - exact Hs.
  - unfold bind, record_call.
    pose proof (record_event_run (c_event_type c) (c_delay_used c)
                  (c_response_time c) (c_error_message c) s w) as [Ho _].
    pose proof (record_event_counting (c_event_type c) (c_delay_used c)
                  (c_response_time c) (c_error_message c) s w Hc (or_intror Hs)) as Hn.
    destruct (record_event _ _ _ _ s w) as [[o s'] w']; cbn in *; subst o.
    now apply IH.
Qed.

(** C3 (as the code has it). Started from the fresh state and fed outcomes of
    the four documented kinds, both counters are zero before the first call
    and exactly one of them is nonzero after every call; at no instant are
    both nonzero. *)
Theorem C3_counters_exclusive (calls : list Call) (w : World) (k : nat)
        (kinds : Forall (fun c => In (c_event_type c) outcome_kinds) calls) :
  let s := self_of (record_events (firstn k calls) fresh w) in
  not_both_nonzero s /\
  match firstn k calls with
  | [] => consecutive_successes s = 0%Z /\ consecutive_failures s = 0%Z
  | _ :: _ => exactly_one_nonzero s
  end.
Proof.
  assert (Hk : Forall (fun c => In (c_event_type c) outcome_kinds) (firstn k calls)).
  { rewrite <- (firstn_skipn k calls) in kinds.
    now apply Forall_app in kinds. }
  destruct (firstn k calls) as [|c rest]; cbn.
  - unfold not_both_nonzero; cbn. auto.
  - inversion Hk as [|c' rest' Hc Hrest]; subst.
    unfold bind, record_call.
    pose proof (record_event_run (c_event_type c) (c_delay_used c)
                  (c_response_time c) (c_error_message c) fresh w) as [Ho _].
    pose proof (record_event_counting (c_event_type c) (c_delay_used c)
                  (c_response_time c) (c_error_message c) fresh w Hc
                  (or_introl (conj eq_refl eq_refl))) as Hn.
    destruct (record_event _ _ _ _ fresh w) as [[o s'] w']; cbn in *; subst o.
    pose proof (record_events_counting rest s' w' Hrest Hn) as Hfin.
    split; [|now apply counting_exactly_one].
    unfold counting, not_both_nonzero in *. lia.
Qed.

(** C3, an instance: after [success] then [error] exactly one counter is
    nonzero. *)
Lemma C3_counters_exclusive_witness :
  Forall (fun c => In (c_event_type c) outcome_kinds)
         [mkCall "success" 0 0 ""; mkCall "error" 0 0 ""] /\
  exactly_one_nonzero
    (self_of (record_events
                [mkCall "success" 0 0 ""; mkCall "error" 0 0 ""] fresh still_world)).
Proof.
  assert (H : Forall (fun c => In (c_event_type c) outcome_kinds)
                     [mkCall "success" 0 0 ""; mkCall "error" 0 0 ""]).
  { repeat (apply Forall_cons; [cbn; auto 6|]). apply Forall_nil. }
  split; [exact H|].
  exact (proj2 (C3_counters_exclusive
                  [mkCall "success" 0 0 ""; mkCall "error" 0 0 ""]
                  still_world 2 H)).
Defined.

(** C3 as stated fails before the first call: on the fresh state both
    counters are zero, so it is not the case that exactly one is nonzero. *)
Lemma C3_counterexample :
  consecutive_successes (self_of (record_events [] fresh still_world)) = 0%Z /\
  consecutive_failures (self_of (record_events [] fresh still_world)) = 0%Z /\
  ~ exactly_one_nonzero (self_of (record_events [] fresh still_world)).
Proof.
  cbn. repeat split. unfold exactly_one_nonzero; cbn. lia.
Qed.

(** C4. Whatever the state, after [record_event] the flag is true for a
    [rate_limit] outcome, false for a [success], and what it was before for an
    [error] or a [timeout]. *)
Theorem C4_flag_after_record_event (s : SmartAnalyzer) (w : World)
        (d r : Q) (m : string) :
  rate_limit_detected (self_of (record_event "rate_limit" d r m s w)) = true /\
  rate_limit_detected (self_of (record_event "success" d r m s w)) = false /\
  rate_limit_detected (self_of (record_event "error" d r m s w))
    = rate_limit_detected s /\
  rate_limit_detected (self_of (record_event "timeout" d r m s w))
    = rate_limit_detected s.
Proof.
  repeat split.
  - now destruct (record_event_run "rate_limit" d r m s w) as [_ ->].
  - now destruct (record_event_run "success" d r m s w) as [_ ->].
  - now destruct (record_event_run "error" d r m s w) as [_ ->].
  - now destruct (record_event_run "timeout" d r m s w) as [_ ->].
Qed.

(** C5. For a jitter draw [j] in [0.8, 1.2], [get_next_delay] returns
    [min(current_delay * j * (2 if rate_limit_detected else 1),
    max_dynamic_delay)] and leaves the object and the world as they were. *)
Theorem C5_get_next_delay (s : SmartAnalyzer) (w : World) (j : Q)
        (draw : 8 # 10 <= j /\ j <= 12 # 10) :
  exists v : Q,
    get_next_delay j s w = (Return v, s, w) /\
    v == py_min (current_delay s * j * (if rate_limit_detected s then 2 else 1))
                config.rate_limit.max_dynamic_delay.
Proof.
  unfold get_next_delay. run.
  eexists. split; [reflexivity|].
  destruct (rate_limit_detected s).
  - reflexivity.
  - unfold py_min.
    assert (E : current_delay s * j * 1 == current_delay s * j) by ring.
    unfold Qltb. rewrite E.
    destruct (Qle_bool _ _); cbn; [symmetry; exact E | reflexivity].
Qed.

(** C5, an instance: the fresh state and the draw 1.0. *)
Lemma C5_get_next_delay_witness :
  (8 # 10 <= 1 /\ 1 <= 12 # 10) /\
  exists v : Q,
    get_next_delay 1 fresh still_world = (Return v, fresh, still_world) /\
    v == py_min (current_delay fresh * 1 * (if rate_limit_detected fresh then 2 else 1))
                config.rate_limit.max_dynamic_delay.
Proof.
  assert (H : 8 # 10 <= 1 /\ 1 <= 12 # 10) by (split; discriminate).
  split; [exact H|].
  exact (C5_get_next_delay fresh still_world 1 H).
Defined.

(** ** Saving and loading *)

Lemma for_each_asdict (l : list RateLimitEvent) (s : SmartAnalyzer) (w : World) :
  for_each RateLimitEvent_kwargs (map asdict l) s w = (Return l, s, w).
Proof.
  induction l as [|e l IH]; cbn.
  - reflexivity.
  - unfold bind. destruct e; cbn. rewrite IH. reflexivity.
Qed.

Lemma _save_analysis_file (s : SmartAnalyzer) (w : World) :
  writable w = true ->
  file (world_of (_save_analysis s w)) = Json (snapshot_of s (clock (advance 0 w))).
Proof.
  intros H. unfold _save_analysis, try_except, json_dump, time_time. run.
  rewrite H. reflexivity.
Qed.

Lemma RateLimitEvent_kwargs_pure (d : EventDict) (s : SmartAnalyzer) (w : World) :
  (exists e, RateLimitEvent_kwargs d s w = (Return e, s, w)) \/
  RateLimitEvent_kwargs d s w = (Raise TypeError, s, w).
Proof.
  unfold RateLimitEvent_kwargs, raise, ret.
  destruct (d_other_keys d); [|now right].
  destruct (d_timestamp d); [|now right].
  destruct (d_event_type d); [|now right].
  destruct (d_delay_used d); [|now right].
  left. eexists; reflexivity.
Qed.

(** Constructing the events of a snapshot touches neither the object nor the
    world, and either returns the events or raises [TypeError]. *)
Lemma for_each_kwargs_pure (l : list EventDict) (s : SmartAnalyzer) (w : World) :
  (exists loaded, for_each RateLimitEvent_kwargs l s w = (Return loaded, s, w)) \/
  for_each RateLimitEvent_kwargs l s w = (Raise TypeError, s, w).
Proof.
  induction l as [|d l IH]; cbn.
  - left. now exists [].
  - unfold bind.
    destruct (RateLimitEvent_kwargs_pure d s w) as [[e ->] | ->]; [|now right].
    destruct IH as [[loaded ->] | ->]; [left; eexists; reflexivity | now right].
Qed.

Lemma for_each_kwargs_outcome (l : list EventDict)
      (s s' : SmartAnalyzer) (w w' : World) :
  outcome_of (for_each RateLimitEvent_kwargs l s w)
  = outcome_of (for_each RateLimitEvent_kwargs l s' w').
Proof.
  induction l as [|d l IH]; cbn.
  - reflexivity.
  - unfold bind.
    destruct (RateLimitEvent_kwargs_pure d s w) as [[e E] | E];
      destruct (RateLimitEvent_kwargs_pure d s' w') as [[e' E'] | E'];
      rewrite E, E';
      try (unfold RateLimitEvent_kwargs, ret, raise in E, E';
           destruct (d_other_keys d), (d_timestamp d), (d_event_type d),
             (d_delay_used d); discriminate);
      [|reflexivity].
    assert (e = e') as <-.
    { unfold RateLimitEvent_kwargs, ret, raise in E, E'.
      destruct (d_other_keys d), (d_timestamp d), (d_event_type d),
        (d_delay_used d); try discriminate. congruence. }
    destruct (for_each_kwargs_pure l s w) as [[ld F] | F];
      destruct (for_each_kwargs_pure l s' w') as [[ld' F'] | F'];
      rewrite F, F' in *; cbn in *; congruence.
Qed.

(** The constructor on a world whose file is a JSON object, by the age of the
    snapshot and by whether its event records can be constructed. *)
Lemma SmartAnalyzer_new_json (w : World) (data : AnalysisDict) :
  file w = Json data ->
  let now := clock (advance 0 w) in
  let r := SmartAnalyzer_new w in
  outcome_of r = Return tt /\
  if Qltb (now - dict_get (j_last_updated data) 0) 86400 then
    match outcome_of (for_each RateLimitEvent_kwargs
                        (dict_get (j_recent_events data) []) fresh w) with
    | Return loaded =>
        self_of r = set_events loaded (with_scalars data fresh) /\
        console (world_of r) = console w
    | Raise e =>
        self_of r = with_scalars data fresh /\
        console (world_of r) = console w ++ [WarnCouldNotLoad e]
    | OutOfFuel => False
    end
  else self_of r = fresh /\ console (world_of r) = console w.
Proof.
  intros Hf. cbv zeta.
  rewrite (for_each_kwargs_outcome _ fresh (with_scalars data fresh) w (advance 0 w)).
  unfold SmartAnalyzer_new, __init__, _load_analysis, try_except,
    os_path_exists, json_load, time_time.
  run. repeat (rewrite Hf; cbn).
  destruct (Qltb _ 86400); cbn; [|auto].
  change (set_rate_limit_detected false
            (set_last_request_time 0
               (set_consecutive_failures 0%Z
                  (set_consecutive_successes 0%Z
                     (set_current_delay config.rate_limit.min_delay
                        (set_events [] fresh)))))) with fresh.
  fold (with_scalars data fresh).
  destruct (for_each_kwargs_pure (dict_get (j_recent_events data) [])
              (with_scalars data fresh) (advance 0 w)) as [[loaded E] | E];
    rewrite E; cbn; auto.
Qed.

Lemma last_n_short {A} (n : nat) (l : list A) :
  (List.length l <= n)%nat -> last_n n l = l.
Proof.
  intros H. unfold last_n.
  replace (List.length l - n)%nat with 0%nat by lia. reflexivity.
Qed.

(** The file is not JSON: the constructor warns and leaves the fresh state. *)
Lemma SmartAnalyzer_new_not_json (w : World) :
  file w = NotJson ->
  outcome_of (SmartAnalyzer_new w) = Return tt /\
  self_of (SmartAnalyzer_new w) = fresh /\
  console (world_of (SmartAnalyzer_new w))
  = console w ++ [WarnCouldNotLoad JSONDecodeError].
Proof.
  intros Hf.
  unfold SmartAnalyzer_new, __init__, _load_analysis, try_except,
    os_path_exists, json_load, time_time.
  run. repeat (rewrite Hf; cbn). auto.
Qed.

(** C6 (as the code has it). A snapshot written by [_save_analysis] and read
    back by the constructor less than 86400 seconds later gives the same
    [current_delay], counters and flag, and the last 100 events of the saved
    list in their order (the whole list when it has at most 100 events); read
    back 86400 seconds later or more it gives the default fresh state. *)
Theorem C6_save_then_load (s : SmartAnalyzer) (w w2 : World)
        (can_write : writable w = true)
        (same_file : file w2 = file (world_of (_save_analysis s w))) :
  let saved_at := clock (advance 0 w) in
  let loaded_at := clock (advance 0 w2) in
  let s' := self_of (SmartAnalyzer_new w2) in
  (loaded_at - saved_at < 86400 ->
   current_delay s' = current_delay s /\
   consecutive_successes s' = consecutive_successes s /\
   consecutive_failures s' = consecutive_failures s /\
   rate_limit_detected s' = rate_limit_detected s /\
   events s' = last_n 100 (events s) /\
   ((List.length (events s) <= 100)%nat -> events s' = events s)) /\
  (86400 <= loaded_at - saved_at -> s' = fresh).
Proof.
  cbv zeta. rewrite (_save_analysis_file s w can_write) in same_file.
  destruct (SmartAnalyzer_new_json w2 _ same_file) as [_ H].
  cbn [snapshot_of j_last_updated j_recent_events dict_get] in H.
  split; intros Hage.
  - apply Qltb_lt in Hage. rewrite Hage in H.
    rewrite for_each_asdict in H. unfold outcome_of in H. cbn [fst] in H.
    destruct H as [-> _]. cbn.
    repeat split; auto. intros Hlen. now apply last_n_short.
  - apply Qltb_ge in Hage. rewrite Hage in H. tauto.
Qed.

(** C6, an instance: [seasoned] saved when the clock shows 1000 comes back
    with its delay, counters, flag and both events when read an hour later,
    and as the fresh state when read two days later. *)
Lemma C6_save_then_load_witness :
  let saved := file (world_of (_save_analysis seasoned still_world)) in
  let soon := self_of (SmartAnalyzer_new (world_at 4600 saved)) in
  let late := self_of (SmartAnalyzer_new (world_at 173800 saved)) in
  writable still_world = true /\
  clock (advance 0 (world_at 4600 saved)) - clock (advance 0 still_world) < 86400 /\
  86400 <= clock (advance 0 (world_at 173800 saved)) - clock (advance 0 still_world) /\
  current_delay soon = 18 /\
  consecutive_successes soon = 0%Z /\
  consecutive_failures soon = 2%Z /\
  rate_limit_detected soon = true /\
  events soon = [mkEvent 990 "rate_limit" 900 0 "Profile load rate limited";
                 mkEvent 995 "error" 6 (1 # 2) "boom"] /\
  late = fresh.
Proof.
  cbv zeta.
  pose proof (C6_save_then_load seasoned still_world
                (world_at 4600 (file (world_of (_save_analysis seasoned still_world))))
                eq_refl eq_refl) as [Hsoon _].
  pose proof (C6_save_then_load seasoned still_world
                (world_at 173800 (file (world_of (_save_analysis seasoned still_world))))
                eq_refl eq_refl) as [_ Hlate].
  assert (A : clock (advance 0 (world_at 4600
                (file (world_of (_save_analysis seasoned still_world)))))
              - clock (advance 0 still_world) < 86400) by reflexivity.
  assert (B : 86400 <= clock (advance 0 (world_at 173800
                (file (world_of (_save_analysis seasoned still_world)))))
              - clock (advance 0 still_world)) by discriminate.
  destruct (Hsoon A) as (Hd & Hs & Hf & Hl & _ & He).
  split; [reflexivity|]. split; [exact A|]. split; [exact B|].
  split; [exact Hd|]. split; [exact Hs|]. split; [exact Hf|]. split; [exact Hl|].
  split; [exact (He (Nat.lt_le_incl _ _ (Nat.lt_le_trans _ _ _ (Nat.lt_succ_diag_r 2)
                       (Nat.le_add_r 3 97))))|].
  exact (Hlate B).
Defined.

(** C6 as stated fails on a long event list: with 101 events recorded, a save
    and an immediate load give back 100 events, not the identical list. *)
Lemma C6_counterexample :
  let s := self_of after_101 in
  let saved := world_of (_save_analysis s (world_of after_101)) in
  let s' := self_of (SmartAnalyzer_new saved) in
  writable (world_of after_101) = true /\
  clock (advance 0 saved) - clock (advance 0 (world_of after_101)) < 86400 /\
  List.length (events s) = 101%nat /\
  List.length (events s') = 100%nat /\
  events s' <> events s.
Proof.
  cbv zeta.
  assert (L1 : List.length (events (self_of after_101)) = 101%nat)
    by (vm_compute; reflexivity).
  assert (L2 : List.length
                 (events (self_of (SmartAnalyzer_new
                    (world_of (_save_analysis (self_of after_101)
                                 (world_of after_101)))))) = 100%nat)
    by (vm_compute; reflexivity).
  repeat split; auto; try (vm_compute; reflexivity).
  intros E. rewrite E in L2. congruence.
Qed.

(** C7, the code at a snapshot with a malformed event record: the
    [TypeError] is caught and warned about, but the four scalar attributes
    were assigned before the events were constructed and keep the snapshot's
    values; the object is not the default fresh state. *)
Theorem C7_partial_load :
  let r := SmartAnalyzer_new broken_world in
  outcome_of r = Return tt /\
  console (world_of r) = [WarnCouldNotLoad TypeError] /\
  current_delay (self_of r) = 25 /\
  consecutive_successes (self_of r) = 3%Z /\
  consecutive_failures (self_of r) = 4%Z /\
  rate_limit_detected (self_of r) = true /\
  events (self_of r) = [] /\
  self_of r <> fresh.
Proof.
  cbv zeta. repeat split; try (vm_compute; reflexivity).
  intros E. apply (f_equal rate_limit_detected) in E. vm_compute in E. discriminate.
Qed.

Lemma for_each_well_formed (l : list EventDict) (s : SmartAnalyzer) (w : World) :
  Forall well_formed_event l ->
  exists loaded, for_each RateLimitEvent_kwargs l s w = (Return loaded, s, w).
Proof.
  induction 1 as [|d l Hd _ [loaded IH]]; cbn.
  - now exists [].
  - unfold bind, RateLimitEvent_kwargs at 1.
    destruct Hd as (Ht & Hy & Hu & _ & _ & ->).
    destruct (d_timestamp d); [|now elim Ht].
    destruct (d_event_type d); [|now elim Hy].
    destruct (d_delay_used d); [|now elim Hu].
    cbn. rewrite IH. eexists; reflexivity.
Qed.

(** C10. The constructor copies the four scalars of every well-formed
    snapshot less than 86400 seconds old as they stand, with no clamping of
    the delay and no check of the counters; and there is such a snapshot
    after whose load [current_delay] is above [max_dynamic_delay] and both
    counters are nonzero. *)
Theorem C10_load_is_verbatim :
  (forall (data : AnalysisDict) (w : World),
      well_formed data ->
      file w = Json data ->
      clock (advance 0 w) - dict_get (j_last_updated data) 0 < 86400 ->
      let s' := self_of (SmartAnalyzer_new w) in
      j_current_delay data = Some (current_delay s') /\
      j_consecutive_successes data = Some (consecutive_successes s') /\
      j_consecutive_failures data = Some (consecutive_failures s') /\
      j_rate_limit_detected data = Some (rate_limit_detected s')) /\
  (exists (data : AnalysisDict) (w : World),
      well_formed data /\
      file w = Json data /\
      clock (advance 0 w) - dict_get (j_last_updated data) 0 < 86400 /\
      let s' := self_of (SmartAnalyzer_new w) in
      ~ delay_in_range s' /\
      config.rate_limit.max_dynamic_delay < current_delay s' /\
      consecutive_successes s' <> 0%Z /\ consecutive_failures s' <> 0%Z /\
      ~ not_both_nonzero s').
Proof.
  split.
  - intros data w (Hd & Hs & Hf & Hr & _ & _ & Hev) Hfile Hage. cbv zeta.
    destruct (SmartAnalyzer_new_json w data Hfile) as [_ H].
    apply Qltb_lt in Hage. rewrite Hage in H.
    destruct (for_each_well_formed _ fresh w Hev) as [loaded E].
    rewrite E in H. unfold outcome_of in H. cbn [fst] in H.
    destruct H as [-> _]. unfold present, with_scalars in *.
    destruct (j_current_delay data); [|now elim Hd].
    destruct (j_consecutive_successes data); [|now elim Hs].
    destruct (j_consecutive_failures data); [|now elim Hf].
    destruct (j_rate_limit_detected data); [|now elim Hr].
    cbn. auto.
  - exists odd_snapshot, odd_world.
    split; [|split; [reflexivity|split; [reflexivity|]]].
    + unfold well_formed, present; cbn. repeat split; try discriminate. constructor.
    + cbv zeta.
      assert (Hd : current_delay (self_of (SmartAnalyzer_new odd_world)) = 100)
        by (vm_compute; reflexivity).
      assert (Hs : consecutive_successes (self_of (SmartAnalyzer_new odd_world)) = 2%Z)
        by (vm_compute; reflexivity).
      assert (Hf : consecutive_failures (self_of (SmartAnalyzer_new odd_world)) = 3%Z)
        by (vm_compute; reflexivity).
      unfold delay_in_range, not_both_nonzero. rewrite Hd, Hs, Hf.
      repeat split; try reflexivity; try lia.
      intros [_ H]. vm_compute in H. now apply H.
Qed.

(** C10, an instance: the scalars of [odd_snapshot] after the load. *)
Lemma C10_load_is_verbatim_witness :
  well_formed odd_snapshot /\
  file odd_world = Json odd_snapshot /\
  clock (advance 0 odd_world) - dict_get (j_last_updated odd_snapshot) 0 < 86400 /\
  j_current_delay odd_snapshot
  = Some (current_delay (self_of (SmartAnalyzer_new odd_world))).
Proof.
  assert (W : well_formed odd_snapshot).
  { unfold well_formed, present; cbn. repeat split; try discriminate. constructor. }
  split; [exact W|]. split; [reflexivity|]. split; [reflexivity|].
  exact (proj1 (proj1 C10_load_is_verbatim odd_snapshot odd_world W eq_refl eq_refl)).
Defined.

(** ** The status report *)

Lemma last_hour_run (l : list RateLimitEvent) (s : SmartAnalyzer) (w : World) :
  exists w', last_hour l s w = (Return (window w l), s, w').
Proof.
  revert w. induction l as [|e l IH]; intros w; cbn.
  - eexists; reflexivity.
  - unfold bind, time_time. cbn.
    destruct (IH (advance 0 w)) as [w' ->]. cbn.
    eexists; reflexivity.
Qed.

(** While the clock stands still the window is the events whose timestamp is
    later than one hour before the reading. *)
Lemma window_still (w : World) (l : list RateLimitEvent) :
  (forall n, pace w n == 0) ->
  Forall (fun e => clock w - 3600 < timestamp e) (window w l) /\
  forall e, In e l -> clock w - 3600 < timestamp e -> In e (window w l).
Proof.
  revert w. induction l as [|e l IH]; intros w Hp; cbn [window].
  - split; [constructor | cbn; tauto].
  - assert (Hc : clock (advance 0 w) == clock w).
    { cbn. rewrite (Hp (ticks w)). ring. }
    assert (Hp' : forall n, pace (advance 0 w) n == 0) by exact Hp.
    destruct (IH (advance 0 w) Hp') as [IH1 IH2].
    assert (IH1' : Forall (fun e => clock w - 3600 < timestamp e)
                          (window (advance 0 w) l)).
    { eapply Forall_impl; [|exact IH1]. cbn beta. intros a Ha.
      rewrite <- Hc. exact Ha. }
    destruct (Qltb (clock (advance 0 w) - 3600) (timestamp e)) eqn:E.
    + apply Qltb_lt in E. split.
      * constructor; [rewrite <- Hc; exact E | exact IH1'].
      * intros e' [<- | Hin] He'; [now left | right].
        apply IH2; [exact Hin | rewrite Hc; exact He'].
    + apply Qltb_ge in E. split; [exact IH1'|].
      intros e' [<- | Hin] He'.
      * exfalso. rewrite Hc in E. apply (Qlt_irrefl (timestamp e)).
        eapply Qle_lt_trans; [exact E | exact He'].
      * apply IH2; [exact Hin | rewrite Hc; exact He'].
Qed.

(** C9. [get_status_report] leaves the object as it was.  With no event in
    the last-hour window it reports [no_data], the current delay and
    [rate_limit_detected] false.  Otherwise, with [success_rate] the share of
    [success] events in the window, it reports [rate_limited] when the flag
    is set; else [optimal] when [success_rate > 0.9]; else [cautious] when
    [success_rate > 0.7]; else [problematic]. *)
Theorem C9_status_report (s : SmartAnalyzer) (w : World) :
  let recent := window w (events s) in
  let success_rate := len (filter is_success recent) / len recent in
  exists (report : StatusReport) (w' : World),
    get_status_report s w = (Return report, s, w') /\
    r_current_delay report = current_delay s /\
    match recent with
    | [] =>
        status report = "no_data"%string /\
        r_rate_limit_detected report = false
    | _ :: _ =>
        r_success_rate report = Some success_rate /\
        r_rate_limit_detected report = rate_limit_detected s /\
        (rate_limit_detected s = true -> status report = "rate_limited"%string) /\
        (rate_limit_detected s = false -> 9 # 10 < success_rate ->
         status report = "optimal"%string) /\
        (rate_limit_detected s = false -> success_rate <= 9 # 10 ->
         7 # 10 < success_rate -> status report = "cautious"%string) /\
        (rate_limit_detected s = false -> success_rate <= 7 # 10 ->
         status report = "problematic"%string)
    end.
Proof.
  cbv zeta. unfold get_status_report. run.
  destruct (last_hour_run (events s) s w) as [w' ->]. cbn.
  destruct (window w (events s)) as [|e recent] eqn:Hwin.
  - cbn. do 2 eexists. split; [reflexivity|]. cbn. auto.
  - set (rate := len (filter is_success (e :: recent)) / len (e :: recent)).
    destruct (rate_limit_detected s) eqn:Hflag.
    + do 2 eexists. split; [reflexivity|]. cbn.
      repeat split; auto; discriminate.
    + destruct (Qltb (9 # 10) rate) eqn:H9.
      * do 2 eexists. split; [reflexivity|]. cbn.
        apply Qltb_lt in H9.
        repeat split; auto; try discriminate;
          intros _ Hle; exfalso; apply (Qlt_irrefl rate); lra.
      * apply Qltb_ge in H9.
        destruct (Qltb (7 # 10) rate) eqn:H7.
        -- do 2 eexists. split; [reflexivity|]. cbn.
           apply Qltb_lt in H7.
           repeat split; auto; try discriminate;
             intros; exfalso; apply (Qlt_irrefl rate); lra.
        -- do 2 eexists. split; [reflexivity|]. cbn.
           apply Qltb_ge in H7.
           repeat split; auto; try discriminate;
             intros; exfalso; apply (Qlt_irrefl rate); lra.
Qed.

(** ** Waiting *)

Lemma advance_clock (d : Q) (w : World) :
  monotone w -> clock w + d <= clock (advance d w).
Proof.
  intros H. cbn. specialize (H (ticks w)). lra.
Qed.

Lemma of_nat_succ (n : nat) :
  inject_Z (Z.of_nat (S n)) == inject_Z (Z.of_nat n) + 1.
Proof.
  rewrite Nat2Z.inj_succ. unfold Z.succ. rewrite inject_Z_plus. reflexivity.
Qed.

Lemma ceiling_fuel (x : Q) : x <= inject_Z (Z.of_nat (Z.to_nat (Qceiling x))).
Proof.
  eapply Qle_trans; [apply Qle_ceiling|].
  rewrite <- Zle_Qle. lia.
Qed.

(** The progress loop returns once the fuel exceeds the time still to wait,
    and then the clock has reached [start_time + delay]. *)
Lemma progress_loop_returns (n : nat) :
  forall (start_time delay : Q) (s : SmartAnalyzer) (w : World),
    monotone w ->
    delay - (clock w - start_time) <= inject_Z (Z.of_nat n) ->
    exists w',
      (forall fuel, (n < fuel)%nat ->
                    progress_loop fuel start_time delay s w = (Return tt, s, w')) /\
      start_time + delay <= clock w' /\
      pace w' = pace w /\ file w' = file w.
Proof.
  induction n as [|n IH]; intros start_time delay s w Hm Hn;
    pose proof (advance_clock 0 w Hm) as H1;
    destruct (Qltb (clock (advance 0 w) - start_time) delay) eqn:Hc.
  - apply Qltb_lt in Hc. exfalso.
    change (inject_Z (Z.of_nat 0)) with 0 in Hn. lra.
  - exists (advance 0 w). apply Qltb_ge in Hc.
    repeat split; auto; [|lra].
    intros [|fuel] Hf; [lia|]. cbn [progress_loop].
    unfold bind, time_time; cbn [fst snd].
    rewrite (proj2 (Qltb_ge _ _) Hc). reflexivity.
  - set (w1 := advance 0 w) in *.
    assert (Hm1 : monotone w1) by exact Hm.
    pose proof (advance_clock 0 w1 Hm1) as H2.
    set (w2 := advance 0 w1) in *.
    set (elapsed := clock w2 - start_time).
    set (progress := elapsed / delay * 100).
    set (w3 := advance 1 (put_console
                            (ProgressBar (py_int (30 * progress / 100)) progress
                                         (delay - elapsed)) w2)).
    assert (H3 : clock w2 + 1 <= clock w3) by (apply advance_clock; exact Hm).
    assert (Hstep : forall fuel,
               progress_loop (S fuel) start_time delay s w =
               if Qle_bool (delay - elapsed) 0 then (Return tt, s, w3)
               else progress_loop fuel start_time delay s w3).
    { intros fuel. cbn [progress_loop].
      unfold bind, time_time; cbn [fst snd]. fold w1. rewrite Hc.
      fold w2. unfold print, time_sleep. cbn [Qltb Qle_bool negb fst snd].
      fold elapsed. fold progress. fold w3.
      destruct (Qle_bool (delay - elapsed) 0); reflexivity. }
    apply Qltb_lt in Hc.
    destruct (Qle_bool (delay - elapsed) 0) eqn:Hr.
    + apply Qle_bool_iff in Hr. exists w3. unfold elapsed in Hr.
      repeat split; auto; [|lra].
      intros [|fuel] Hf; [lia|]. apply Hstep.
    + assert (Hm3 : monotone w3) by exact Hm.
      destruct (IH start_time delay s w3 Hm3) as (w' & E & Hw' & Hp & Hfl).
      * rewrite of_nat_succ in Hn. lra.
      * exists w'. repeat split; auto.
        intros [|fuel] Hf; [lia|]. rewrite Hstep. apply E. lia.
  - exists (advance 0 w). apply Qltb_ge in Hc.
    repeat split; auto; [|lra].
    intros [|fuel] Hf; [lia|]. cbn [progress_loop].
    unfold bind, time_time; cbn [fst snd].
    rewrite (proj2 (Qltb_ge _ _) Hc). reflexivity.
Qed.

Lemma blocking_returns (delay : Q) (reason : string) (s : SmartAnalyzer) (w : World) :
  monotone w ->
  exists n w',
    (forall fuel, (n <= fuel)%nat ->
                  blocking fuel delay reason s w
                  = (Return tt, set_last_request_time (clock w') s, w')) /\
    pace w' = pace w /\ file w' = file w /\
    clock w <= clock w' /\ clock w + delay <= clock w'.
Proof.
  intros Hm. unfold blocking.
  destruct (Qle_bool delay 0) eqn:Hd.
  - apply Qle_bool_iff in Hd. exists 0%nat, (advance 0 w).
    pose proof (advance_clock 0 w Hm).
    repeat split; auto; lra.
  - apply Qle_bool_gt in Hd.
    set (w0 := put_console (Waiting reason delay) w).
    assert (Hm0 : monotone w0) by exact Hm.
    destruct (Qltb 5 delay) eqn:H5.
    + pose proof (advance_clock 0 w0 Hm0) as H1.
      destruct (progress_loop_returns (Z.to_nat (Qceiling delay))
                  (clock (advance 0 w0)) delay s (advance 0 w0))
        as (w2 & E & Hw2 & Hp2 & Hf2).
      * exact Hm0.
      * pose proof (ceiling_fuel delay). lra.
      * assert (Hm2 : monotone (put_console NewLine w2)).
        { intros k. cbn. rewrite Hp2. apply Hm. }
        pose proof (advance_clock 0 _ Hm2) as H3.
        exists (S (Z.to_nat (Qceiling delay))), (advance 0 (put_console NewLine w2)).
        repeat split; auto; try (cbn in *; lra).
        intros fuel Hf.
        unfold bind, print, time_time, assign; cbn [fst snd]. fold w0.
        rewrite (E fuel) by lia. reflexivity.
    + assert (Hs : Qltb delay 0 = false) by (apply Qltb_ge; lra).
      pose proof (advance_clock delay w0 Hm0) as H1.
      assert (Hm1 : monotone (advance delay w0)) by exact Hm.
      pose proof (advance_clock 0 _ Hm1) as H2.
      exists 0%nat, (advance 0 (advance delay w0)).
      repeat split; auto; try (cbn in *; lra).
      intros fuel _.
      unfold bind, print, time_sleep, time_time, assign; cbn [fst snd]. fold w0.
      rewrite Hs. reflexivity.
Qed.

(** One call: with enough fuel it returns, stores the clock reading it ends
    on, and, when a previous request instant is on record, that reading is at
    least [min_delay] later than the previous one, whatever delay was asked. *)
Lemma wait_with_progress_spacing (delay : Q) (reason : string)
      (s : SmartAnalyzer) (w : World) :
  monotone w ->
  exists n w',
    (forall fuel, (n <= fuel)%nat ->
                  wait_with_progress fuel delay reason s w
                  = (Return tt, set_last_request_time (clock w') s, w')) /\
    pace w' = pace w /\ file w' = file w /\
    (0 < last_request_time s ->
     last_request_time s + config.rate_limit.min_delay <= clock w').
Proof.
  intros Hm.
  assert (Hw : forall fuel, wait_with_progress fuel delay reason s w =
    bind (last_request_time_ <- self_ last_request_time ;;
          if Qltb 0 last_request_time_ then
              now <- time_time ;;
              let time_since_last := now - last_request_time_ in
              let min_spacing := config.rate_limit.min_delay in
              if Qltb time_since_last min_spacing then
                let additional_delay := min_spacing - time_since_last in
                ret (py_max delay additional_delay)
              else ret delay
            else ret delay)
         (fun d => blocking fuel d reason) s w).
  { intros fuel. unfold wait_with_progress, blocking, bind, self_. cbn.
    destruct (Qltb 0 (last_request_time s)); [|reflexivity].
    unfold time_time. cbn. destruct (Qltb _ _); reflexivity. }
  unfold config.rate_limit.min_delay in *.
  destruct (Qltb 0 (last_request_time s)) eqn:Hl.
  - pose proof (advance_clock 0 w Hm) as H1.
    assert (Hm1 : monotone (advance 0 w)) by exact Hm.
    destruct (Qltb (clock (advance 0 w) - last_request_time s) 3) eqn:Ht.
    + destruct (blocking_returns
                  (py_max delay (3 - (clock (advance 0 w) - last_request_time s)))
                  reason s (advance 0 w) Hm1) as (n & w' & E & Hp & Hfl & Hc1 & Hc2).
      exists n, w'. repeat split; auto.
      * intros fuel Hf. rewrite Hw. unfold bind, self_, time_time; cbn [fst snd].
        rewrite Hl. cbn [fst snd]. rewrite Ht. cbn [ret]. now apply E.
      * intros _.
        destruct (py_max_spec delay (3 - (clock (advance 0 w) - last_request_time s)))
          as [[L R] | [L R]]; rewrite R in Hc2; lra.
    + destruct (blocking_returns delay reason s (advance 0 w) Hm1)
        as (n & w' & E & Hp & Hfl & Hc1 & Hc2).
      exists n, w'. repeat split; auto.
      * intros fuel Hf. rewrite Hw. unfold bind, self_, time_time; cbn [fst snd].
        rewrite Hl. cbn [fst snd]. rewrite Ht. cbn [ret]. now apply E.
      * intros _. apply Qltb_ge in Ht. lra.
  - destruct (blocking_returns delay reason s w Hm)
      as (n & w' & E & Hp & Hfl & Hc1 & Hc2).
    exists n, w'. repeat split; auto.
    + intros fuel Hf. rewrite Hw. unfold bind, self_; cbn [fst snd].
      rewrite Hl. cbn [ret]. now apply E.
    + intros Hpos. apply Qltb_ge in Hl. exfalso. lra.
Qed.





(** The same two calls, evaluated: the first records 1000, the second waits
    three seconds and records 1003. *)
Example back_to_back :
  let r1 := wait_with_progress 0 0 "" fresh still_world in
  let r2 := wait_with_progress 0 0 "" (self_of r1) (world_of r1) in
  last_request_time (self_of r1) == 1000 /\
  last_request_time (self_of r2) == 1003 /\
  console (world_of r2) = [Waiting "" 3].
Proof.
  vm_compute. repeat split; reflexivity.
Qed.

(** ** The delay controller, one outcome at a time *)

(** What one [record_event] call leaves in each attribute. *)
Lemma record_event_attributes (ty : string) (d r : Q) (m : string)
      (s : SmartAnalyzer) (w : World) :
  let s' := self_of (record_event ty d r m s w) in
  events s' = events s ++ [mkEvent (clock (advance 0 w)) ty d r m] /\
  consecutive_successes s' = consecutive_successes (counted ty s) /\
  consecutive_failures s' = consecutive_failures (counted ty s) /\
  rate_limit_detected s' = rate_limit_detected (counted ty s) /\
  last_request_time s' = last_request_time s /\
  current_delay s' = adjusted (counted ty s).
Proof.
  cbv zeta. destruct (record_event_run ty d r m s w) as [_ ->].
  unfold counted, adjusted.
  destruct (ty =? "success")%string; [cbn; auto 7|].
  destruct (existsb _ _); [|cbn; auto 7].
  destruct (ty =? "rate_limit")%string; cbn; auto 7.
Qed.

Lemma failure_kind_not_success (ty : string) :
  is_failure_kind ty = true -> (ty =? "success")%string = false.
Proof.
  unfold is_failure_kind. cbn. rewrite !orb_true_iff.
  intros [H | [H | [H | H]]]; try discriminate;
    apply String.eqb_eq in H; subst; reflexivity.
Qed.

Lemma record_events_app (l1 l2 : list Call) (s : SmartAnalyzer) (w : World) :
  record_events (l1 ++ l2) s w =
  record_events l2 (self_of (record_events l1 s w)) (world_of (record_events l1 s w)).
Proof.
  revert s w. induction l1 as [|c l1 IH]; intros s w.
  - reflexivity.
  - change (record_events ((c :: l1) ++ l2) s w)
      with (bind (record_call c) (fun _ => record_events (l1 ++ l2)) s w).
    change (record_events (c :: l1) s w)
      with (bind (record_call c) (fun _ => record_events l1) s w).
    unfold bind, record_call.
    pose proof (record_event_run (c_event_type c) (c_delay_used c)
                  (c_response_time c) (c_error_message c) s w) as [Ho _].
    destruct (record_event _ _ _ _ s w) as [[o s'] w']; cbn in Ho; subst o.
    apply IH.
Qed.

Lemma record_events_cons (c : Call) (l : list Call) (s : SmartAnalyzer) (w : World) :
  record_events (c :: l) s w =
  record_events l (self_of (record_call c s w)) (world_of (record_call c s w)).
Proof.
  change (record_events (c :: l) s w)
    with (bind (record_call c) (fun _ => record_events l) s w).
  unfold bind, record_call.
  pose proof (record_event_run (c_event_type c) (c_delay_used c)
                (c_response_time c) (c_error_message c) s w) as [Ho _].
  destruct (record_event _ _ _ _ s w) as [[o s'] w']; cbn in Ho; subst o.
  reflexivity.
Qed.

Lemma record_event_consistent (ty : string) (d r : Q) (m : string)
      (s : SmartAnalyzer) (w : World) :
  consistent s -> consistent (self_of (record_event ty d r m s w)).
Proof.
  intros (Hs & Hf & Hn & Hfl).
  destruct (record_event_attributes ty d r m s w) as (_ & Es & Ef & El & _ & _).
  unfold consistent, not_both_nonzero in *. rewrite Es, Ef, El. clear Es Ef El.
  unfold counted.
  destruct (ty =? "success")%string; [cbn; repeat split; try lia; discriminate|].
  destruct (existsb _ _); [|cbn; auto].
  destruct (ty =? "rate_limit")%string; cbn; repeat split; try lia;
    intros H; specialize (Hfl H); lia.
Qed.

(** X1. Whatever strings are passed as outcome kinds, every state reached from
    the fresh one has counters that are not negative and not both nonzero,
    and the flag is only set while failures are being counted: then
    [consecutive_failures >= 1] and [consecutive_successes = 0]. *)
Theorem reachable_states_consistent (calls : list Call) (w : World) (k : nat) :
  let s := self_of (record_events (firstn k calls) fresh w) in
  (0 <= consecutive_successes s)%Z /\ (0 <= consecutive_failures s)%Z /\
  (consecutive_successes s = 0 \/ consecutive_failures s = 0)%Z /\
  (rate_limit_detected s = true ->
   consecutive_successes s = 0%Z /\ (1 <= consecutive_failures s)%Z).
Proof.
  cbv zeta.
  assert (G : forall l s w', consistent s ->
                             consistent (self_of (record_events l s w'))).
  { induction l as [|c l IH]; intros s w' Hs.
    - exact Hs.
    - rewrite record_events_cons. apply IH. now apply record_event_consistent. }
  apply (G (firstn k calls) fresh w).
  unfold consistent, not_both_nonzero; cbn. repeat split; try lia; discriminate.
Qed.

(** X2. For a delay within its bounds, a [success] never raises the delay and a
    [rate_limit], [error] or [timeout] never lowers it. *)
Theorem delay_moves_the_right_way (ty : string) (d r : Q) (m : string)
        (s : SmartAnalyzer) (w : World) (bounds : delay_in_range s) :
  let s' := self_of (record_event ty d r m s w) in
  (ty = "success"%string -> current_delay s' <= current_delay s) /\
  (is_failure_kind ty = true -> current_delay s <= current_delay s').
Proof.
  cbv zeta.
  destruct (record_event_attributes ty d r m s w) as (_ & _ & _ & _ & _ & ->).
  destruct bounds as [Hlo Hhi].
  unfold config.rate_limit.min_delay, config.rate_limit.max_dynamic_delay in *.
  split.
  - intros ->. unfold adjusted, counted. cbn.
    unfold config.rate_limit.min_delay, config.rate_limit.success_reduction.
    destruct (5 <=? consecutive_successes s + 1)%Z; [|apply Qle_refl].
    destruct (py_max_spec (current_delay s * (9 # 10)) 3) as [[L ->] | [L ->]]; lra.
  - intros Hk. unfold adjusted, counted.
    rewrite (failure_kind_not_success ty Hk).
    unfold is_failure_kind in Hk. rewrite Hk.
    assert (E : forall s0, consecutive_successes s0 = 0%Z ->
                current_delay s0 = current_delay s ->
                current_delay s <=
                (let d0 :=
                   if (5 <=? consecutive_successes s0)%Z
                   then py_max (current_delay s0 * config.rate_limit.success_reduction)
                               config.rate_limit.min_delay
                   else if (2 <=? consecutive_failures s0)%Z
                        then py_min (current_delay s0 * config.rate_limit.failure_increase)
                                    config.rate_limit.max_dynamic_delay
                        else current_delay s0 in
                 if rate_limit_detected s0 && (1 <=? consecutive_failures s0)%Z
                 then py_min config.rate_limit.max_dynamic_delay (d0 * 2) else d0)).
    { intros s0 E0 Ed. rewrite E0, Ed. cbn [Z.leb Z.compare].
      unfold config.rate_limit.min_delay, config.rate_limit.max_dynamic_delay,
        config.rate_limit.failure_increase. cbv zeta.
      destruct (2 <=? consecutive_failures s0)%Z;
        [destruct (py_min_spec (current_delay s * (3 # 2)) 30) as [[L ->] | [L ->]]|];
        (destruct (rate_limit_detected s0 && (1 <=? consecutive_failures s0)%Z);
         [match goal with
          | |- context [py_min ?a ?b] =>
              destruct (py_min_spec a b) as [[L' ->] | [L' ->]]
          end|]); lra. }
    destruct (ty =? "rate_limit")%string; apply E; reflexivity.
Qed.

(** An instance: an [error] recorded on the fresh state. *)
Lemma delay_moves_the_right_way_witness :
  delay_in_range fresh /\
  current_delay fresh
  <= current_delay (self_of (record_event "error" 0 0 "" fresh still_world)).
Proof.
  split; [exact fresh_in_range|].
  exact (proj2 (delay_moves_the_right_way "error" 0 0 "" fresh still_world
                  fresh_in_range) eq_refl).
Defined.

Lemma py_min_glb (a b c : Q) : c <= a -> c <= b -> c <= py_min a b.
Proof.
  intros Ha Hb. destruct (py_min_spec a b) as [[_ ->] | [_ ->]]; assumption.
Qed.

Lemma py_min_le_l (a b : Q) : py_min a b <= a.
Proof.
  destruct (py_min_spec a b) as [[L ->] | [L ->]]; [apply Qlt_le_weak, L | apply Qle_refl].
Qed.

Lemma py_min_le_r (a b : Q) : py_min a b <= b.
Proof.
  destruct (py_min_spec a b) as [[L ->] | [L ->]]; [apply Qle_refl | exact L].
Qed.

(** X3. Backing off.  For a delay [d] within its bounds and a failure counter
    that is not negative: a [rate_limit] raises the delay to at least
    [min(30, 2 d)], and to at least [min(30, 3 d)] when a failure was already
    counted; any failure outcome that follows a failure raises it to at
    least [min(30, 1.5 d)]. *)
Theorem failures_back_off (ty : string) (d r : Q) (m : string)
        (s : SmartAnalyzer) (w : World)
        (bounds : delay_in_range s) (counted_up : (0 <= consecutive_failures s)%Z) :
  let s' := self_of (record_event ty d r m s w) in
  (ty = "rate_limit"%string ->
   py_min 30 (current_delay s * 2) <= current_delay s' /\
   ((1 <= consecutive_failures s)%Z ->
    py_min 30 (current_delay s * 3) <= current_delay s')) /\
  (is_failure_kind ty = true -> (1 <= consecutive_failures s)%Z ->
   py_min 30 (current_delay s * (3 # 2)) <= current_delay s').
Proof.
  cbv zeta.
  destruct (record_event_attributes ty d r m s w) as (_ & _ & _ & _ & _ & ->).
  destruct bounds as [Hlo Hhi].
  unfold config.rate_limit.min_delay, config.rate_limit.max_dynamic_delay in *.
  pose proof (py_min_le_l 30 (current_delay s * 2)) as M2.
  pose proof (py_min_le_r 30 (current_delay s * 2)) as M2'.
  pose proof (py_min_le_l 30 (current_delay s * 3)) as M3.
  pose proof (py_min_le_r 30 (current_delay s * 3)) as M3'.
  pose proof (py_min_le_l 30 (current_delay s * (3 # 2))) as M1.
  pose proof (py_min_le_r 30 (current_delay s * (3 # 2))) as M1'.
  split.
  - intros ->. unfold adjusted, counted. cbn.
    unfold config.rate_limit.max_dynamic_delay, config.rate_limit.failure_increase.
    replace (1 <=? consecutive_failures s + 1)%Z with true
      by (symmetry; apply Z.leb_le; lia).
    destruct (2 <=? consecutive_failures s + 1)%Z eqn:E2.
    + split; [|intros _];
        destruct (py_min_spec (current_delay s * (3 # 2)) 30) as [[L ->] | [L ->]];
        apply py_min_glb; lra.
    + split.
      * apply py_min_glb; lra.
      * intros H1. apply Z.leb_gt in E2. lia.
  - intros Hk H1. unfold adjusted, counted.
    rewrite (failure_kind_not_success ty Hk).
    unfold is_failure_kind in Hk. rewrite Hk.
    assert (E : forall b,
               py_min 30 (current_delay s * (3 # 2)) <=
               adjusted (mkAnalyzer (events s) (current_delay s) 0
                                    (consecutive_failures s + 1) (last_request_time s) b)).
    { intros b. unfold adjusted. cbn.
      unfold config.rate_limit.max_dynamic_delay, config.rate_limit.failure_increase.
      replace (2 <=? consecutive_failures s + 1)%Z with true
        by (symmetry; apply Z.leb_le; lia).
      destruct (py_min_spec (current_delay s * (3 # 2)) 30) as [[L ->] | [L ->]];
        (destruct (b && (1 <=? consecutive_failures s + 1)%Z);
         [apply py_min_glb|]); lra. }
    destruct (ty =? "rate_limit")%string; apply E.
Qed.

(** An instance: a second [error] in a row at the delay 3.0. *)
Lemma failures_back_off_witness :
  let s := set_consecutive_failures 1 fresh in
  delay_in_range s /\ (0 <= consecutive_failures s)%Z /\
  py_min 30 (current_delay s * (3 # 2))
  <= current_delay (self_of (record_event "error" 0 0 "" s still_world)).
Proof.
  cbv zeta.
  assert (B : delay_in_range (set_consecutive_failures 1 fresh))
    by exact fresh_in_range.
  assert (C : (0 <= consecutive_failures (set_consecutive_failures 1 fresh))%Z)
    by (cbn; lia).
  split; [exact B|]. split; [exact C|].
  refine (proj2 (failures_back_off "error" 0 0 ""
                   (set_consecutive_failures 1 fresh) still_world B C) eq_refl _).
  cbn; lia.
Defined.

(** X4. Recovering.  From the fifth [success] in a row on, each [success] sets
    the delay to [max(0.9 d, 3)]: below [d] while [d] is above [min_delay],
    and never below [min_delay]. *)
Theorem successes_recover (d r : Q) (m : string) (s : SmartAnalyzer) (w : World)
        (streak : (4 <= consecutive_successes s)%Z) :
  let s' := self_of (record_event "success" d r m s w) in
  current_delay s' =
    py_max (current_delay s * config.rate_limit.success_reduction)
           config.rate_limit.min_delay /\
  config.rate_limit.min_delay <= current_delay s' /\
  (config.rate_limit.min_delay < current_delay s -> current_delay s' < current_delay s).
Proof.
  cbv zeta.
  destruct (record_event_attributes "success" d r m s w) as (_ & _ & _ & _ & _ & ->).
  unfold adjusted, counted. cbn.
  replace (5 <=? consecutive_successes s + 1)%Z with true
    by (symmetry; apply Z.leb_le; lia).
  split; [reflexivity|].
  unfold config.rate_limit.min_delay, config.rate_limit.success_reduction.
  destruct (py_max_spec (current_delay s * (9 # 10)) 3) as [[L ->] | [L ->]];
    split; intros; lra.
Qed.

(** An instance: a fifth [success] at the delay 30. *)
Lemma successes_recover_witness :
  let s := set_consecutive_successes 4 (set_current_delay 30 fresh) in
  (4 <= consecutive_successes s)%Z /\
  current_delay (self_of (record_event "success" 0 0 "" s still_world)) < current_delay s.
Proof.
  cbv zeta.
  assert (H : (4 <= consecutive_successes
                      (set_consecutive_successes 4 (set_current_delay 30 fresh)))%Z)
    by (cbn; lia).
  split; [exact H|].
  exact (proj2 (proj2 (successes_recover 0 0 ""
                         (set_consecutive_successes 4 (set_current_delay 30 fresh))
                         still_world H)) eq_refl).
Defined.

Lemma record_call_in_range (c : Call) (s : SmartAnalyzer) (w : World) :
  delay_in_range s -> delay_in_range (self_of (record_call c s w)).
Proof. apply record_event_in_range. Qed.

(** One [rate_limit] on a state with bounded delay and a failure counter that
    is not negative. *)
Lemma rate_limit_step (d r : Q) (m : string) (s : SmartAnalyzer) (w : World) :
  delay_in_range s -> (0 <= consecutive_failures s)%Z ->
  let s' := self_of (record_event "rate_limit" d r m s w) in
  delay_in_range s' /\
  consecutive_failures s' = (consecutive_failures s + 1)%Z /\
  rate_limit_detected s' = true /\
  py_min 30 (current_delay s * 2) <= current_delay s' /\
  ((1 <= consecutive_failures s)%Z ->
   py_min 30 (current_delay s * 3) <= current_delay s').
Proof.
  intros B C. cbv zeta.
  pose proof (record_event_in_range "rate_limit" d r m s w B) as B'.
  destruct (record_event_attributes "rate_limit" d r m s w) as (_ & _ & Ef & El & _ & Ed).
  rewrite Ef, El, Ed. clear Ef El Ed.
  repeat split; try apply B'.
  - unfold adjusted, counted. cbn.
    unfold config.rate_limit.max_dynamic_delay, config.rate_limit.failure_increase.
    destruct B as [Hlo Hhi].
    unfold config.rate_limit.min_delay, config.rate_limit.max_dynamic_delay in *.
    pose proof (py_min_le_l 30 (current_delay s * 2)) as M2.
    pose proof (py_min_le_r 30 (current_delay s * 2)) as M2'.
    replace (1 <=? consecutive_failures s + 1)%Z with true
      by (symmetry; apply Z.leb_le; lia).
    destruct (2 <=? consecutive_failures s + 1)%Z;
      [destruct (py_min_spec (current_delay s * (3 # 2)) 30) as [[L ->] | [L ->]]|];
      apply py_min_glb; lra.
  - intros H1. unfold adjusted, counted. cbn.
    unfold config.rate_limit.max_dynamic_delay, config.rate_limit.failure_increase.
    destruct B as [Hlo Hhi].
    unfold config.rate_limit.min_delay, config.rate_limit.max_dynamic_delay in *.
    pose proof (py_min_le_l 30 (current_delay s * 3)) as M3.
    pose proof (py_min_le_r 30 (current_delay s * 3)) as M3'.
    replace (1 <=? consecutive_failures s + 1)%Z with true
      by (symmetry; apply Z.leb_le; lia).
    replace (2 <=? consecutive_failures s + 1)%Z with true
      by (symmetry; apply Z.leb_le; lia).
    destruct (py_min_spec (current_delay s * (3 # 2)) 30) as [[L ->] | [L ->]];
      apply py_min_glb; lra.
Qed.

(** X5. Three [rate_limit] outcomes in a row bring any delay within the bounds to
    [max_dynamic_delay] = 30, with the flag set. *)
Theorem three_rate_limits_saturate (c1 c2 c3 : Call) (s : SmartAnalyzer) (w : World)
        (bounds : delay_in_range s) (counted_up : (0 <= consecutive_failures s)%Z)
        (kinds : c_event_type c1 = "rate_limit"%string /\
                 c_event_type c2 = "rate_limit"%string /\
                 c_event_type c3 = "rate_limit"%string) :
  let s' := self_of (record_events [c1; c2; c3] s w) in
  current_delay s' == config.rate_limit.max_dynamic_delay /\
  rate_limit_detected s' = true.
Proof.
  cbv zeta. destruct kinds as (K1 & K2 & K3).
  rewrite !record_events_cons. cbn [record_events ret self_of fst snd].
  unfold record_call. rewrite K1, K2, K3.
  set (r1 := record_event "rate_limit" _ _ _ s w).
  destruct (rate_limit_step (c_delay_used c1) (c_response_time c1) (c_error_message c1)
              s w bounds counted_up) as (B1 & F1 & _ & D1 & _).
  fold r1 in B1, F1, D1.
  set (r2 := record_event "rate_limit" _ _ _ (self_of r1) (world_of r1)).
  destruct (rate_limit_step (c_delay_used c2) (c_response_time c2) (c_error_message c2)
              (self_of r1) (world_of r1) B1 ltac:(lia)) as (B2 & F2 & _ & _ & D2).
  fold r2 in B2, F2, D2. specialize (D2 ltac:(lia)).
  set (r3 := record_event "rate_limit" _ _ _ (self_of r2) (world_of r2)).
  destruct (rate_limit_step (c_delay_used c3) (c_response_time c3) (c_error_message c3)
              (self_of r2) (world_of r2) B2 ltac:(lia)) as (B3 & _ & L3 & _ & D3).
  fold r3 in B3, L3, D3. specialize (D3 ltac:(lia)).
  split; [|exact L3].
  destruct bounds as [Hlo _]. destruct B1 as [_ H1]. destruct B2 as [_ H2].
  destruct B3 as [_ H3].
  unfold config.rate_limit.min_delay, config.rate_limit.max_dynamic_delay in *.
  destruct (py_min_spec 30 (current_delay s * 2)) as [[L E] | [L E]]; rewrite E in D1;
    destruct (py_min_spec 30 (current_delay (self_of r1) * 3)) as [[L' E'] | [L' E']];
    rewrite E' in D2;
    destruct (py_min_spec 30 (current_delay (self_of r2) * 3)) as [[L'' E''] | [L'' E'']];
    rewrite E'' in D3; apply Qle_antisym; lra.
Qed.

(** An instance: three [rate_limit] outcomes on the fresh state. *)
Lemma three_rate_limits_saturate_witness :
  delay_in_range fresh /\ (0 <= consecutive_failures fresh)%Z /\
  current_delay
    (self_of (record_events (times 3 (mkCall "rate_limit" 900 0 "")) fresh still_world))
  == 30.
Proof.
  assert (C : (0 <= consecutive_failures fresh)%Z) by (cbn; lia).
  split; [exact fresh_in_range|]. split; [exact C|].
  exact (proj1 (three_rate_limits_saturate
                  (mkCall "rate_limit" 900 0 "") (mkCall "rate_limit" 900 0 "")
                  (mkCall "rate_limit" 900 0 "") fresh still_world
                  fresh_in_range C (conj eq_refl (conj eq_refl eq_refl)))).
Defined.

(** One [success] on a state with bounded delay. *)
Lemma success_step (c : Call) (s : SmartAnalyzer) (w : World) :
  c_event_type c = "success"%string -> delay_in_range s ->
  let s' := self_of (record_call c s w) in
  delay_in_range s' /\
  consecutive_successes s' = (consecutive_successes s + 1)%Z /\
  current_delay s' <= current_delay s /\
  ((4 <= consecutive_successes s)%Z ->
   current_delay s' <= 3 \/ current_delay s' <= current_delay s * (9 # 10)).
Proof.
  intros K B. cbv zeta. unfold record_call. rewrite K.
  pose proof (record_event_in_range "success" (c_delay_used c) (c_response_time c)
                (c_error_message c) s w B) as B'.
  destruct (record_event_attributes "success" (c_delay_used c) (c_response_time c)
              (c_error_message c) s w) as (_ & Es & _ & _ & _ & Ed).
  rewrite Es, Ed. clear Es Ed.
  destruct B as [Hlo Hhi].
  unfold config.rate_limit.min_delay, config.rate_limit.max_dynamic_delay in *.
  split; [exact B'|]. split; [reflexivity|].
  unfold adjusted, counted. cbn.
  unfold config.rate_limit.min_delay, config.rate_limit.success_reduction.
  split.
  - destruct (5 <=? consecutive_successes s + 1)%Z; [|apply Qle_refl].
    destruct (py_max_spec (current_delay s * (9 # 10)) 3) as [[L ->] | [L ->]]; lra.
  - intros H4.
    replace (5 <=? consecutive_successes s + 1)%Z with true
      by (symmetry; apply Z.leb_le; lia).
    destruct (py_max_spec (current_delay s * (9 # 10)) 3) as [[L ->] | [L ->]];
      [left | right]; apply Qle_refl.
Qed.

Lemma successes_warm_up (calls : list Call) :
  Forall (fun c => c_event_type c = "success"%string) calls ->
  forall (s : SmartAnalyzer) (w : World),
    delay_in_range s ->
    let s' := self_of (record_events calls s w) in
    delay_in_range s' /\
    consecutive_successes s' = (consecutive_successes s + Z.of_nat (List.length calls))%Z.
Proof.
  induction 1 as [|c calls Hc _ IH]; intros s w B; cbv zeta.
  - cbn. split; [exact B | lia].
  - rewrite record_events_cons.
    destruct (success_step c s w Hc B) as (B1 & C1 & _ & _).
    destruct (IH _ (world_of (record_call c s w)) B1) as [B2 C2].
    split; [exact B2|]. rewrite C2, C1. cbn [List.length]. lia.
Qed.

Lemma successes_cool_down (calls : list Call) :
  Forall (fun c => c_event_type c = "success"%string) calls ->
  forall (s : SmartAnalyzer) (w : World) (e : nat),
    delay_in_range s -> (4 <= consecutive_successes s)%Z ->
    current_delay s <= 3 \/ current_delay s <= 30 * Qpow (9 # 10) e ->
    let s' := self_of (record_events calls s w) in
    current_delay s' <= 3 \/
    current_delay s' <= 30 * Qpow (9 # 10) (e + List.length calls).
Proof.
  induction 1 as [|c calls Hc _ IH]; intros s w e B C D; cbv zeta.
  - cbn. now rewrite Nat.add_0_r.
  - rewrite record_events_cons.
    destruct (success_step c s w Hc B) as (B1 & C1 & L1 & R1).
    specialize (R1 C).
    cbn [List.length]. rewrite <- Nat.add_succ_comm.
    apply IH; [exact B1 | lia |].
    destruct D as [D | D]; [left; lra|].
    destruct R1 as [R1 | R1]; [now left | right].
    cbn [Qpow]. lra.
Qed.

Lemma Qpow_decreasing (n m : nat) :
  (n <= m)%nat -> 0 <= Qpow (9 # 10) m /\ Qpow (9 # 10) m <= Qpow (9 # 10) n.
Proof.
  induction 1 as [|m _ [IH0 IH]].
  - split; [|apply Qle_refl].
    induction n as [|n IHn]; cbn [Qpow]; [discriminate | lra].
  - cbn [Qpow]. split; lra.
Qed.

(** X6. After 26 or more [success] outcomes in a row, whatever the delay within
    the bounds was before, the delay is back at [min_delay] = 3. *)
Theorem enough_successes_reach_min_delay (calls : list Call)
        (s : SmartAnalyzer) (w : World)
        (bounds : delay_in_range s)
        (counted_up : (0 <= consecutive_successes s)%Z)
        (all_success : Forall (fun c => c_event_type c = "success"%string) calls)
        (long : (26 <= List.length calls)%nat) :
  current_delay (self_of (record_events calls s w)) == config.rate_limit.min_delay.
Proof.
  rewrite <- (firstn_skipn 4 calls) in all_success |- *.
  apply Forall_app in all_success. destruct all_success as [A1 A2].
  rewrite record_events_app.
  destruct (successes_warm_up _ A1 s w bounds) as [B1 C1].
  rewrite length_firstn in C1.
  set (s1 := self_of (record_events (firstn 4 calls) s w)) in *.
  set (w1 := world_of (record_events (firstn 4 calls) s w)).
  assert (D1 : current_delay s1 <= 3 \/ current_delay s1 <= 30 * Qpow (9 # 10) 0).
  { right. destruct B1 as [_ H]. unfold config.rate_limit.max_dynamic_delay in H.
    cbn [Qpow]. lra. }
  pose proof (successes_cool_down _ A2 s1 w1 0 B1 ltac:(lia) D1) as D2.
  cbv zeta in D2. cbn [Nat.add] in D2.
  destruct (successes_warm_up _ A2 s1 w1 B1) as [[Hlo _] _].
  unfold config.rate_limit.min_delay in *.
  apply Qle_antisym; [|exact Hlo].
  destruct D2 as [D2 | D2]; [exact D2|].
  rewrite length_skipn in D2.
  destruct (Qpow_decreasing 22 (List.length calls - 4) ltac:(lia)) as [_ P].
  assert (P22 : 30 * Qpow (9 # 10) 22 <= 3) by (vm_compute; discriminate).
  lra.
Qed.

(** An instance: 26 successes after the delay had reached 30. *)
Lemma enough_successes_reach_min_delay_witness :
  let s := set_current_delay 30 fresh in
  delay_in_range s /\ (0 <= consecutive_successes s)%Z /\
  current_delay
    (self_of (record_events (times 26 (mkCall "success" 3 0 "")) s still_world)) == 3.
Proof.
  cbv zeta.
  assert (B : delay_in_range (set_current_delay 30 fresh)).
  { split; cbn; discriminate. }
  assert (C : (0 <= consecutive_successes (set_current_delay 30 fresh))%Z)
    by (cbn; lia).
  split; [exact B|]. split; [exact C|].
  refine (enough_successes_reach_min_delay
            (times 26 (mkCall "success" 3 0 "")) (set_current_delay 30 fresh)
            still_world B C _ _).
  - unfold times. apply Forall_forall. intros c Hc.
    apply repeat_spec in Hc. subst. reflexivity.
  - cbn. lia.
Defined.

(** ** The event log and its checkpoints *)

Lemma _save_analysis_world (s : SmartAnalyzer) (w : World) :
  world_of (_save_analysis s w) =
  if writable w
  then set_file (Json (snapshot_of s (clock (advance 0 w)))) (advance 0 w)
  else put_console (WarnCouldNotSave OSError) (advance 0 w).
Proof.
  unfold _save_analysis, try_except, json_dump, time_time. run.
  destruct (writable w); reflexivity.
Qed.

(** The world one [record_event] call leaves: the clock has been read once,
    and when the log has reached a multiple of ten events the state has been
    saved. *)
Lemma record_event_world (ty : string) (d r : Q) (m : string)
      (s : SmartAnalyzer) (w : World) :
  world_of (record_event ty d r m s w) =
  if (List.length (events s ++ [mkEvent (clock (advance 0 w)) ty d r m]) mod 10 =? 0)%nat
  then world_of (_save_analysis (self_of (record_event ty d r m s w)) (advance 0 w))
  else advance 0 w.
Proof.
  destruct (record_event_run ty d r m s w) as [_ Hs]. rewrite Hs. clear Hs.
  unfold record_event, counted.
  destruct (ty =? "success")%string;
    [|destruct (existsb (String.eqb ty) ["rate_limit"; "error"; "timeout"]%string);
      [destruct (ty =? "rate_limit")%string|]];
    unfold time_time; run; rewrite _adjust_delay_run; cbn;
    match goal with
    | |- context [if ?b then _save_analysis else _] => destruct b
    end; cbn; try reflexivity;
    match goal with
    | |- context [_save_analysis ?s ?w] =>
        destruct (_save_analysis s w) as [[o s'] w']; reflexivity
    end.
Qed.

(** X7. The log is append-only: a sequence of calls leaves the log it found,
    followed by one event for each call, in the order of the calls and with
    the call's arguments. *)
Theorem log_is_append_only (calls : list Call) (s : SmartAnalyzer) (w : World) :
  exists added : list RateLimitEvent,
    events (self_of (record_events calls s w)) = events s ++ added /\
    map (fun e => mkCall (event_type e) (delay_used e) (response_time e)
                         (error_message e)) added = calls.
Proof.
  revert s w. induction calls as [|c calls IH]; intros s w.
  - exists []. cbn. split; [now rewrite app_nil_r | reflexivity].
  - rewrite record_events_cons.
    destruct (IH (self_of (record_call c s w)) (world_of (record_call c s w)))
      as (added & E & M).
    unfold record_call in *.
    destruct (record_event_attributes (c_event_type c) (c_delay_used c)
                (c_response_time c) (c_error_message c) s w) as (Ev & _).
    rewrite Ev in E.
    eexists (_ :: added). split.
    + rewrite E, <- app_assoc. reflexivity.
    + cbn. rewrite M. destruct c; reflexivity.
Qed.

(** On a clock that does not run backwards, the reading of one
    [record_event] call lies between the clock before and after the call. *)
Lemma record_event_clock (ty : string) (d r : Q) (m : string)
      (s : SmartAnalyzer) (w : World) :
  monotone w ->
  monotone (world_of (record_event ty d r m s w)) /\
  clock w <= clock (advance 0 w) /\
  clock (advance 0 w) <= clock (world_of (record_event ty d r m s w)).
Proof.
  intros Hm. pose proof (advance_clock 0 w Hm) as H1.
  assert (Hm1 : monotone (advance 0 w)) by exact Hm.
  pose proof (advance_clock 0 _ Hm1) as H2.
  rewrite record_event_world.
  destruct (_ =? 0)%nat.
  - rewrite _save_analysis_world.
    destruct (writable (advance 0 w)); (split; [exact Hm|]); split; cbn in *; lra.
  - split; [exact Hm|]. split; [lra | apply Qle_refl].
Qed.

(** X8. With a clock that does not run backwards, the timestamps in the log of a
    controller started fresh never decrease from one event to the next. *)
Theorem log_timestamps_in_order (calls : list Call) (w : World)
        (steady : monotone w) :
  StronglySorted Qle
    (map timestamp (events (self_of (record_events calls fresh w)))).
Proof.
  assert (G : forall l s w',
             monotone w' ->
             StronglySorted Qle (map timestamp (events s)) ->
             Forall (fun e => timestamp e <= clock w') (events s) ->
             StronglySorted Qle
               (map timestamp (events (self_of (record_events l s w'))))).
  { induction l as [|c l IH]; intros s w' Hm Hs Hb.
    - exact Hs.
    - rewrite record_events_cons. unfold record_call.
      destruct (record_event_clock (c_event_type c) (c_delay_used c)
                  (c_response_time c) (c_error_message c) s w' Hm) as (Hm' & C1 & C2).
      destruct (record_event_attributes (c_event_type c) (c_delay_used c)
                  (c_response_time c) (c_error_message c) s w') as (Ev & _).
      set (t := clock (advance 0 w')) in *.
      apply IH; [exact Hm' | |]; rewrite Ev.
      + rewrite map_app. cbn [map timestamp].
        clearbody t. clear - Hs Hb C1. induction (events s) as [|e es IHes]; cbn.
        * repeat constructor.
        * inversion Hs; subst. inversion Hb; subst.
          constructor; [now apply IHes|].
          rewrite Forall_app. split; [assumption|].
          constructor; [|constructor]. lra.
      + rewrite Forall_app. split.
        * eapply Forall_impl; [|exact Hb]. cbn beta. intros e He. lra.
        * constructor; [|constructor]. exact C2. }
  apply G; [exact steady | constructor | constructor].
Qed.

(** An instance: two outcomes recorded while the clock stands. *)
Lemma log_timestamps_in_order_witness :
  monotone still_world /\
  StronglySorted Qle
    (map timestamp
         (events (self_of (record_events
                             [mkCall "success" 3 1 ""; mkCall "error" 3 1 "boom"]
                             fresh still_world)))).
Proof.
  assert (H : monotone still_world) by (intros k; cbn; discriminate).
  split; [exact H|].
  exact (log_timestamps_in_order
           [mkCall "success" 3 1 ""; mkCall "error" 3 1 "boom"] still_world H).
Defined.

(** X10. [record_event] always returns and lengthens the log by one.  The
    object it leaves is the one the counter update and the delay adjustment
    give: it does not depend on the analysis file, on whether the file can be
    written, or on whether a save was due.  The file is written exactly when
    the log reaches a multiple of ten events, and what is written is the
    snapshot of that object; a file that cannot be written costs one warning
    and nothing else. *)
Theorem checkpoint_every_ten_events (ty : string) (d r : Q) (m : string)
        (s : SmartAnalyzer) (w : World) :
  let res := record_event ty d r m s w in
  let n := S (List.length (events s)) in
  let event := mkEvent (clock (advance 0 w)) ty d r m in
  let updated := counted ty (set_events (events s ++ [event]) s) in
  outcome_of res = Return tt /\
  List.length (events (self_of res)) = n /\
  self_of res = set_current_delay (adjusted updated) updated /\
  (forall w2 : World,
      clock (advance 0 w2) = clock (advance 0 w) ->
      self_of (record_event ty d r m s w2) = self_of res) /\
  ((n mod 10)%nat <> 0%nat ->
   file (world_of res) = file w /\ console (world_of res) = console w) /\
  ((n mod 10)%nat = 0%nat -> writable w = true ->
   (exists saved_at,
       file (world_of res) = Json (snapshot_of (self_of res) saved_at)) /\
   console (world_of res) = console w) /\
  ((n mod 10)%nat = 0%nat -> writable w = false ->
   file (world_of res) = file w /\
   console (world_of res) = console w ++ [WarnCouldNotSave OSError]).
Proof.
  cbv zeta.
  destruct (record_event_run ty d r m s w) as [Ho Hs].
  destruct (record_event_attributes ty d r m s w) as (Ev & _).
  pose proof (record_event_world ty d r m s w) as Hw.
  rewrite _save_analysis_world in Hw.
  assert (Hl : List.length (events s ++ [mkEvent (clock (advance 0 w)) ty d r m])
               = S (List.length (events s))).
  { rewrite length_app. cbn. lia. }
  rewrite Hl in Hw. change (writable (advance 0 w)) with (writable w) in Hw.
  split; [exact Ho|]. split; [now rewrite Ev|]. split; [exact Hs|].
  split.
  { intros w2 Hc. destruct (record_event_run ty d r m s w2) as [_ Hs2].
    rewrite Hs2, Hs, Hc. reflexivity. }
  destruct (Nat.eqb_spec (S (List.length (events s)) mod 10) 0) as [E | E].
  - split; [intros H; now elim H|].
    split; intros _ Hwr; rewrite Hwr in Hw; rewrite Hw; cbn.
    + split; [eexists; reflexivity | reflexivity].
    + split; reflexivity.
  - split; [intros _; rewrite Hw; split; reflexivity|].
    split; intros H; now elim E.
Qed.

(** An instance: the tenth event, a [rate_limit], recorded where the file can
    be written and where it cannot.  Either way the delay is doubled to 6 and
    the flag set; the writable world holds the snapshot afterwards, the other
    one still has no file and shows the warning. *)
Lemma checkpoint_every_ten_events_witness :
  let s := set_events (repeat (mkEvent 0 "success" 0 0 "") 9) fresh in
  let saved := record_event "rate_limit" 900 0 "" s still_world in
  let unsaved := record_event "rate_limit" 900 0 "" s read_only_world in
  (S (List.length (events s)) mod 10)%nat = 0%nat /\
  writable still_world = true /\ writable read_only_world = false /\
  (exists saved_at,
      file (world_of saved) = Json (snapshot_of (self_of saved) saved_at)) /\
  self_of unsaved = self_of saved /\
  current_delay (self_of unsaved) == 6 /\
  rate_limit_detected (self_of unsaved) = true /\
  file (world_of unsaved) = NoFile /\
  console (world_of unsaved) = [WarnCouldNotSave OSError].
Proof.
  cbv zeta.
  pose proof (checkpoint_every_ten_events "rate_limit" 900 0 ""
                (set_events (repeat (mkEvent 0 "success" 0 0 "") 9) fresh)
                still_world) as (_ & _ & _ & Hsame & _ & Hsaved & _).
  pose proof (checkpoint_every_ten_events "rate_limit" 900 0 ""
                (set_events (repeat (mkEvent 0 "success" 0 0 "") 9) fresh)
                read_only_world) as (_ & _ & Hstate & _ & _ & _ & Hunsaved).
  destruct (Hsaved eq_refl eq_refl) as [Hfile _].
  destruct (Hunsaved eq_refl eq_refl) as [Hnofile Hwarn].
  split; [reflexivity|]. split; [reflexivity|]. split; [reflexivity|].
  split; [exact Hfile|].
  split; [exact (Hsame read_only_world eq_refl)|].
  split; [rewrite Hstate; reflexivity|].
  split; [rewrite Hstate; reflexivity|].
  split; [exact Hnofile | exact Hwarn].
Defined.

(** X11. A restart after a checkpoint.  When the event that has just been recorded
    was the tenth, twentieth, ... of the log and the file could be written, a
    controller constructed from that file less than 86400 seconds later has
    the same delay, counters and flag, and the last 100 events of the log. *)
Theorem restart_after_checkpoint (ty : string) (d r : Q) (m : string)
        (s : SmartAnalyzer) (w w2 : World)
        (tenth : (S (List.length (events s)) mod 10)%nat = 0%nat)
        (can_write : writable w = true)
        (same_file : file w2 = file (world_of (record_event ty d r m s w)))
        (recent : clock (advance 0 w2) - clock (advance 0 (advance 0 w)) < 86400) :
  let before := self_of (record_event ty d r m s w) in
  let after := self_of (SmartAnalyzer_new w2) in
  current_delay after = current_delay before /\
  consecutive_successes after = consecutive_successes before /\
  consecutive_failures after = consecutive_failures before /\
  rate_limit_detected after = rate_limit_detected before /\
  events after = last_n 100 (events before) /\
  last_request_time after = 0.
Proof.
  cbv zeta.
  pose proof (record_event_world ty d r m s w) as Hw.
  rewrite _save_analysis_world in Hw.
  rewrite length_app in Hw. cbn [List.length] in Hw.
  rewrite Nat.add_1_r, tenth in Hw. cbn [Nat.eqb] in Hw.
  change (writable (advance 0 w)) with (writable w) in Hw.
  rewrite can_write in Hw. rewrite Hw in same_file. cbn [file set_file] in same_file.
  destruct (SmartAnalyzer_new_json w2 _ same_file) as [_ H].
  cbn [snapshot_of j_last_updated j_recent_events dict_get] in H.
  apply Qltb_lt in recent. rewrite recent in H.
  rewrite for_each_asdict in H. unfold outcome_of in H. cbn [fst] in H.
  destruct H as [-> _]. cbn. repeat split; reflexivity.
Qed.

(** An instance: restarting at once after the tenth event. *)
Lemma restart_after_checkpoint_witness :
  let s := set_events (repeat (mkEvent 0 "success" 0 0 "") 9) fresh in
  let res := record_event "rate_limit" 900 0 "" s still_world in
  current_delay (self_of (SmartAnalyzer_new (world_of res)))
  = current_delay (self_of res).
Proof.
  cbv zeta.
  exact (proj1 (restart_after_checkpoint "rate_limit" 900 0 ""
                  (set_events (repeat (mkEvent 0 "success" 0 0 "") 9) fresh)
                  still_world
                  (world_of (record_event "rate_limit" 900 0 ""
                               (set_events (repeat (mkEvent 0 "success" 0 0 "") 9) fresh)
                               still_world))
                  eq_refl eq_refl eq_refl eq_refl)).
Defined.

(** ** The constructor, whatever is on disk *)

(** X12. [SmartAnalyzer()] always returns, never writes the analysis file, and
    starts with no request instant on record: a missing file, a file that is
    not JSON, a stale snapshot and a snapshot with event records that cannot
    be constructed are all survived. *)
Theorem constructor_survives_any_file (w : World) :
  let res := SmartAnalyzer_new w in
  outcome_of res = Return tt /\
  file (world_of res) = file w /\
  last_request_time (self_of res) = 0 /\
  (console (world_of res) = console w \/
   exists e, console (world_of res) = console w ++ [WarnCouldNotLoad e]).
Proof.
  cbv zeta.
  unfold SmartAnalyzer_new, __init__, _load_analysis, try_except,
    os_path_exists, json_load, time_time.
  run. destruct (file w) as [| |data] eqn:Hf; cbn.
  - rewrite Hf. auto.
  - rewrite Hf. cbn. repeat split; auto. right. eexists; reflexivity.
  - rewrite Hf. cbn.
    destruct (Qltb _ 86400); cbn; [|rewrite Hf; auto].
    match goal with
    | |- context [for_each RateLimitEvent_kwargs ?l ?s ?w'] =>
        destruct (for_each_kwargs_pure l s w') as [[loaded E] | E]; rewrite E
    end; cbn; rewrite Hf; repeat split; auto.
    right. eexists; reflexivity.
Qed.

(** X13. A JSON object with no keys at all leaves the default fresh state,
    whatever the clock says, and no warning. *)
Theorem empty_object_loads_as_fresh (w : World)
        (empty : file w = Json (mkAnalysisDict None None None None None None)) :
  self_of (SmartAnalyzer_new w) = fresh /\
  console (world_of (SmartAnalyzer_new w)) = console w.
Proof.
  destruct (SmartAnalyzer_new_json w _ empty) as [_ H].
  cbn [j_last_updated j_recent_events dict_get for_each] in H.
  destruct (Qltb _ 86400); [|exact H].
  cbn in H. exact H.
Qed.

(** An instance: the empty object on a clock that stands at 1000. *)
Lemma empty_object_loads_as_fresh_witness :
  self_of (SmartAnalyzer_new
             (set_file (Json (mkAnalysisDict None None None None None None))
                       still_world)) = fresh.
Proof.
  exact (proj1 (empty_object_loads_as_fresh
                  (set_file (Json (mkAnalysisDict None None None None None None))
                            still_world) eq_refl)).
Defined.

(** X14. A snapshot without [last_updated] counts as written at time 0: once the
    clock reads 86400 or more it is ignored, whatever else it holds. *)
Theorem undated_snapshot_is_ignored (w : World) (data : AnalysisDict)
        (on_disk : file w = Json data)
        (undated : j_last_updated data = None)
        (clock_set : 86400 <= clock (advance 0 w)) :
  self_of (SmartAnalyzer_new w) = fresh /\
  console (world_of (SmartAnalyzer_new w)) = console w.
Proof.
  destruct (SmartAnalyzer_new_json w _ on_disk) as [_ H].
  rewrite undated in H. cbn [dict_get] in H.
  assert (E : Qltb (clock (advance 0 w) - 0) 86400 = false) by (apply Qltb_ge; lra).
  rewrite E in H. exact H.
Qed.

(** An instance: an undated snapshot read when the clock shows 100000. *)
Lemma undated_snapshot_is_ignored_witness :
  let data := mkAnalysisDict (Some 25) (Some 3%Z) (Some 4%Z) (Some true) None (Some []) in
  let w := mkWorld 100000 0 (fun _ => 0) (Json data) true [] in
  self_of (SmartAnalyzer_new w) = fresh.
Proof.
  cbv zeta.
  refine (proj1 (undated_snapshot_is_ignored
                   (mkWorld 100000 0 (fun _ => 0)
                      (Json (mkAnalysisDict (Some 25) (Some 3%Z) (Some 4%Z) (Some true)
                                            None (Some []))) true [])
                   _ eq_refl eq_refl _)).
  cbn. discriminate.
Defined.

(** ** The next delay and the batch scheduler *)

(** X15. For a delay within its bounds and a jitter draw in [0.8, 1.2],
    [get_next_delay] lies between [0.8 * min_delay] = 2.4 and
    [max_dynamic_delay] = 30, and is at least 4.8 while the flag is set; it
    can be below [min_delay]. *)
Theorem next_delay_bounds (s : SmartAnalyzer) (w : World) (j : Q)
        (bounds : delay_in_range s) (draw : 8 # 10 <= j /\ j <= 12 # 10) :
  exists v : Q,
    get_next_delay j s w = (Return v, s, w) /\
    24 # 10 <= v /\ v <= config.rate_limit.max_dynamic_delay /\
    (rate_limit_detected s = true -> 48 # 10 <= v).
Proof.
  unfold get_next_delay. run. eexists. split; [reflexivity|].
  destruct bounds as [Hlo Hhi]. destruct draw as [Jlo Jhi].
  unfold config.rate_limit.min_delay, config.rate_limit.max_dynamic_delay in *.
  assert (P : 3 * (8 # 10) <= current_delay s * j).
  { apply Qle_trans with (current_delay s * (8 # 10)).
    - apply Qmult_le_compat_r; [exact Hlo | discriminate].
    - rewrite !(Qmult_comm (current_delay s)).
      apply Qmult_le_compat_r; [exact Jlo | lra]. }
  destruct (rate_limit_detected s);
    match goal with
    | |- context [py_min ?a ?b] => destruct (py_min_spec a b) as [[L ->] | [L ->]]
    end; repeat split; try lra; intros; try discriminate; lra.
Qed.

(** An instance: the fresh state with the lowest draw gives 2.4, below
    [min_delay]. *)
Lemma next_delay_bounds_witness :
  delay_in_range fresh /\ (8 # 10 <= 8 # 10 /\ 8 # 10 <= 12 # 10) /\
  exists v : Q,
    get_next_delay (8 # 10) fresh still_world = (Return v, fresh, still_world) /\
    24 # 10 <= v /\ v <= config.rate_limit.max_dynamic_delay /\
    (rate_limit_detected fresh = true -> 48 # 10 <= v).
Proof.
  assert (D : 8 # 10 <= 8 # 10 /\ 8 # 10 <= 12 # 10) by (split; discriminate).
  split; [exact fresh_in_range|]. split; [exact D|].
  exact (next_delay_bounds fresh still_world (8 # 10) fresh_in_range D).
Defined.

(** X16. [should_take_batch_break] is true exactly at the positive multiples of
    [batch_size] = 10 (false at 0 and at negative counts) and leaves the
    object as it was. *)
Theorem batch_break_at_multiples_of_ten (items_processed : Z)
        (s : SmartAnalyzer) (w : World) :
  exists b : bool,
    should_take_batch_break items_processed s w = (Return b, s, w) /\
    (b = true <-> exists k : Z, (0 < k)%Z /\ items_processed = (10 * k)%Z).
Proof.
  unfold should_take_batch_break, ret, config.rate_limit.batch_size.
  eexists. split; [reflexivity|].
  rewrite andb_true_iff, Z.ltb_lt, Z.eqb_eq. split.
  - intros [Hp Hm]. exists (items_processed / 10)%Z.
    pose proof (Z.div_mod items_processed 10 ltac:(lia)). lia.
  - intros (k & Hk & ->). split; [lia|].
    rewrite Z.mul_comm. apply Z.mod_mul. lia.
Qed.

(** X17. The batch break after a recorded outcome: 450 seconds (1.5 times
    [batch_delay]) right after a [rate_limit], and still after [error] and
    [timeout] outcomes that follow it; never more than 300 seconds right
    after a [success]. *)
Theorem batch_delay_follows_the_flag (ty : string) (d r : Q) (m : string)
        (s : SmartAnalyzer) (w : World) :
  let res := record_event ty d r m s w in
  exists v : Q,
    get_batch_delay (self_of res) (world_of res)
    = (Return v, self_of res, world_of res) /\
    (ty = "rate_limit"%string -> v == 450) /\
    (ty = "error"%string \/ ty = "timeout"%string ->
     rate_limit_detected s = true -> v == 450) /\
    (ty = "success"%string -> v <= 300).
Proof.
  cbv zeta.
  destruct (record_event_attributes ty d r m s w) as (_ & Es & _ & El & _ & _).
  generalize dependent (world_of (record_event ty d r m s w)).
  generalize dependent (self_of (record_event ty d r m s w)).
  intros s' Es El w'.
  unfold get_batch_delay. run. rewrite El. clear El.
  destruct (rate_limit_detected (counted ty s)) eqn:Hf; cbn.
  - eexists. split; [reflexivity|]. repeat split; try reflexivity.
    intros ->. discriminate.
  - rewrite Es. clear Es.
    destruct (20 <? consecutive_successes (counted ty s))%Z;
      (eexists; split; [reflexivity|]); repeat split;
      try (intros ->; discriminate);
      try (intros [-> | ->] Hs; cbn in Hf; congruence);
      intros; discriminate.
Qed.

(** X18. From the fresh state, after [n] successes in a row the batch break is
    240 seconds (0.8 times [batch_delay]) when [n > 20], and 300 seconds up
    to then. *)
Theorem batch_delay_after_successes (calls : list Call) (w : World)
        (all_success : Forall (fun c => c_event_type c = "success"%string) calls) :
  let res := record_events calls fresh w in
  exists v : Q,
    get_batch_delay (self_of res) (world_of res)
    = (Return v, self_of res, world_of res) /\
    ((20 < List.length calls)%nat -> v == 240) /\
    ((List.length calls <= 20)%nat -> v == 300).
Proof.
  cbv zeta.
  destruct (successes_warm_up calls all_success fresh w fresh_in_range) as [_ C].
  cbn [consecutive_successes fresh] in C.
  assert (F : rate_limit_detected (self_of (record_events calls fresh w)) = false).
  { destruct calls as [|c calls]; [reflexivity|].
    destruct (@exists_last _ (c :: calls) ltac:(discriminate)) as (l & c' & E).
    rewrite E in *. apply Forall_app in all_success.
    destruct all_success as [_ Hc']. inversion Hc' as [|? ? K _]; subst.
    rewrite record_events_app, record_events_cons. cbn [record_events ret self_of fst snd].
    unfold record_call. rewrite K.
    match goal with
    | |- context [record_event "success" ?a ?b ?c ?s0 ?w0] =>
        destruct (record_event_attributes "success" a b c s0 w0)
          as (_ & _ & _ & El & _ & _); rewrite El
    end.
    reflexivity. }
  generalize dependent (world_of (record_events calls fresh w)).
  generalize dependent (self_of (record_events calls fresh w)).
  intros s' C F w'.
  unfold get_batch_delay. run. rewrite F. cbn. rewrite C.
  destruct (20 <? 0 + Z.of_nat (List.length calls))%Z eqn:E;
    (eexists; split; [reflexivity|]); split; intros H;
    try reflexivity;
    [apply Z.ltb_lt in E | apply Z.ltb_ge in E]; lia.
Qed.

(** An instance: 21 successes. *)
Lemma batch_delay_after_successes_witness :
  let res := record_events (times 21 (mkCall "success" 3 1 "")) fresh still_world in
  exists v : Q,
    get_batch_delay (self_of res) (world_of res)
    = (Return v, self_of res, world_of res) /\
    ((20 < 21)%nat -> v == 240) /\ ((21 <= 20)%nat -> v == 300).
Proof.
  refine (batch_delay_after_successes (times 21 (mkCall "success" 3 1 "")) still_world _).
  unfold times. apply Forall_forall. intros c Hc.
  apply repeat_spec in Hc. subst. reflexivity.
Defined.

(** ** Waiting, continued *)

Lemma py_max_ge_l (a b : Q) : a <= py_max a b.
Proof.
  destruct (py_max_spec a b) as [[L ->] | [L ->]]; [apply Qlt_le_weak, L | apply Qle_refl].
Qed.

(** X19. With a clock that does not run backwards and enough fuel,
    [wait_with_progress] returns only after at least the delay it was asked
    for has passed, changes no attribute but [last_request_time], which it
    sets to the clock reading it ends on, and leaves the analysis file
    alone. *)
Theorem wait_lasts_as_long_as_asked (delay : Q) (reason : string)
        (s : SmartAnalyzer) (w : World) (steady : monotone w) :
  exists (n : nat) (w' : World),
    (forall fuel, (n <= fuel)%nat ->
                  wait_with_progress fuel delay reason s w
                  = (Return tt, set_last_request_time (clock w') s, w')) /\
    clock w + delay <= clock w' /\ clock w <= clock w' /\
    file w' = file w.
Proof.
  assert (Hw : forall fuel, wait_with_progress fuel delay reason s w =
    bind (last_request_time_ <- self_ last_request_time ;;
          if Qltb 0 last_request_time_ then
              now <- time_time ;;
              let time_since_last := now - last_request_time_ in
              let min_spacing := config.rate_limit.min_delay in
              if Qltb time_since_last min_spacing then
                let additional_delay := min_spacing - time_since_last in
                ret (py_max delay additional_delay)
              else ret delay
            else ret delay)
         (fun d => blocking fuel d reason) s w).
  { intros fuel. unfold wait_with_progress, blocking, bind, self_. cbn.
    destruct (Qltb 0 (last_request_time s)); [|reflexivity].
    unfold time_time. cbn. destruct (Qltb _ _); reflexivity. }
  unfold config.rate_limit.min_delay in *.
  destruct (Qltb 0 (last_request_time s)) eqn:Hl.
  - pose proof (advance_clock 0 w steady) as H1.
    assert (Hm1 : monotone (advance 0 w)) by exact steady.
    destruct (Qltb (clock (advance 0 w) - last_request_time s) 3) eqn:Ht.
    + destruct (blocking_returns
                  (py_max delay (3 - (clock (advance 0 w) - last_request_time s)))
                  reason s (advance 0 w) Hm1) as (n & w' & E & Hp & Hfl & Hc1 & Hc2).
      exists n, w'. repeat split; auto.
      * intros fuel Hf. rewrite Hw. unfold bind, self_, time_time; cbn [fst snd].
        rewrite Hl. cbn [fst snd]. rewrite Ht. cbn [ret]. now apply E.
      * pose proof (py_max_ge_l delay
                      (3 - (clock (advance 0 w) - last_request_time s))). lra.
      * lra.
    + destruct (blocking_returns delay reason s (advance 0 w) Hm1)
        as (n & w' & E & Hp & Hfl & Hc1 & Hc2).
      exists n, w'. repeat split; auto; try lra.
      intros fuel Hf. rewrite Hw. unfold bind, self_, time_time; cbn [fst snd].
      rewrite Hl. cbn [fst snd]. rewrite Ht. cbn [ret]. now apply E.
  - destruct (blocking_returns delay reason s w steady)
      as (n & w' & E & Hp & Hfl & Hc1 & Hc2).
    exists n, w'. repeat split; auto.
    intros fuel Hf. rewrite Hw. unfold bind, self_; cbn [fst snd].
    rewrite Hl. cbn [ret]. now apply E.
Qed.

(** An instance: a wait of seven seconds on a clock that stands between
    observations. *)
Lemma wait_lasts_as_long_as_asked_witness :
  monotone still_world /\
  exists (n : nat) (w' : World),
    (forall fuel, (n <= fuel)%nat ->
                  wait_with_progress fuel 7 "Rate limiting" fresh still_world
                  = (Return tt, set_last_request_time (clock w') fresh, w')) /\
    clock still_world + 7 <= clock w' /\ clock still_world <= clock w' /\
    file w' = file still_world.
Proof.
  assert (H : monotone still_world) by (intros k; cbn; discriminate).
  split; [exact H|].
  exact (wait_lasts_as_long_as_asked 7 "Rate limiting" fresh still_world H).
Defined.

(** X20. When nothing is due the call returns at once: asked for a delay of zero
    or less, with no request on record or with the last one at least
    [min_delay] ago, [wait_with_progress] prints nothing, does not sleep and
    needs no fuel; it only reads the clock (once, or twice when a request is
    on record) and records the last reading. *)
Theorem no_wait_when_nothing_is_due (fuel : nat) (delay : Q) (reason : string)
        (s : SmartAnalyzer) (w : World)
        (nothing_asked : delay <= 0)
        (nothing_owed : last_request_time s <= 0 \/
                        last_request_time s + config.rate_limit.min_delay
                        <= clock (advance 0 w)) :
  exists w' : World,
    wait_with_progress fuel delay reason s w
    = (Return tt, set_last_request_time (clock w') s, w') /\
    console w' = console w /\
    (w' = advance 0 w \/ w' = advance 0 (advance 0 w)).
Proof.
  unfold wait_with_progress, bind, self_, time_time, assign, ret; cbn [fst snd].
  unfold config.rate_limit.min_delay in *.
  apply Qle_bool_iff in nothing_asked.
  destruct (Qltb 0 (last_request_time s)) eqn:Hl.
  - apply Qltb_lt in Hl.
    destruct nothing_owed as [H | H]; [exfalso; lra|].
    assert (Ht : Qltb (clock (advance 0 w) - last_request_time s) 3 = false)
      by (apply Qltb_ge; lra).
    rewrite Ht, nothing_asked.
    exists (advance 0 (advance 0 w)). repeat split; auto.
  - rewrite nothing_asked. exists (advance 0 w). repeat split; auto.
Qed.

(** An instance: the first call of a fresh controller with delay 0. *)
Lemma no_wait_when_nothing_is_due_witness :
  0 <= 0 /\
  (last_request_time fresh <= 0 \/
   last_request_time fresh + config.rate_limit.min_delay
   <= clock (advance 0 still_world)) /\
  exists w' : World,
    wait_with_progress 0 0 "" fresh still_world
    = (Return tt, set_last_request_time (clock w') fresh, w') /\
    console w' = console still_world /\
    (w' = advance 0 still_world \/ w' = advance 0 (advance 0 still_world)).
Proof.
  assert (A : 0 <= 0) by apply Qle_refl.
  assert (B : last_request_time fresh <= 0 \/
              last_request_time fresh + config.rate_limit.min_delay
              <= clock (advance 0 still_world)) by (left; apply Qle_refl).
  split; [exact A|]. split; [exact B|].
  exact (no_wait_when_nothing_is_due 0 0 "" fresh still_world A B).
Defined.

(** ** The status report, continued *)

Lemma window_length (w : World) (l : list RateLimitEvent) :
  (List.length (window w l) <= List.length l)%nat.
Proof.
  revert w. induction l as [|e l IH]; intros w; cbn [window].
  - apply Nat.le_refl.
  - cbv zeta. destruct (Qltb _ _); cbn [List.length]; specialize (IH (advance 0 w)); lia.
Qed.

Lemma len_nonneg {A} (l : list A) : 0 <= len l.
Proof.
  unfold len. change 0 with (inject_Z 0). rewrite <- Zle_Qle. lia.
Qed.

Lemma len_cons_pos {A} (x : A) (l : list A) : 0 < len (x :: l).
Proof.
  unfold len. change 0 with (inject_Z 0). rewrite <- Zlt_Qlt. cbn [List.length]. lia.
Qed.

Lemma len_filter_le {A} (p : A -> bool) (l : list A) : len (filter p l) <= len l.
Proof.
  unfold len. rewrite <- Zle_Qle. apply inj_le. apply filter_length_le.
Qed.

(** The report as the branch with data builds it. *)
Lemma get_status_report_run (s : SmartAnalyzer) (w : World)
      (e : RateLimitEvent) (recent : list RateLimitEvent) :
  window w (events s) = e :: recent ->
  exists (report : StatusReport) (w' : World),
    get_status_report s w = (Return report, s, w') /\
    r_success_rate report
    = Some (len (filter is_success (e :: recent)) / len (e :: recent)) /\
    r_events_last_hour report = Some (List.length (e :: recent)) /\
    status report =
      (if rate_limit_detected s then "rate_limited"
       else if Qltb (9 # 10) (len (filter is_success (e :: recent)) / len (e :: recent))
            then "optimal"
            else if Qltb (7 # 10)
                         (len (filter is_success (e :: recent)) / len (e :: recent))
                 then "cautious" else "problematic")%string.
Proof.
  intros Hwin. unfold get_status_report. run.
  destruct (last_hour_run (events s) s w) as [w' ->]. cbv beta iota zeta.
  rewrite Hwin. cbv beta iota zeta.
  destruct (rate_limit_detected s);
    [|destruct (Qltb (9 # 10) _); [|destruct (Qltb (7 # 10) _)]];
    do 2 eexists; (split; [reflexivity|]); repeat split; reflexivity.
Qed.

(** X21. Whatever the log holds, the report's status is one of the five known
    ones; and when it is not [no_data], the success rate it gives lies
    between 0 and 1 and the number of events of the last hour is positive and
    at most the length of the log. *)
Theorem report_numbers_are_sane (s : SmartAnalyzer) (w : World) :
  exists (report : StatusReport) (w' : World),
    get_status_report s w = (Return report, s, w') /\
    In (status report)
       ["no_data"; "rate_limited"; "optimal"; "cautious"; "problematic"]%string /\
    (status report <> "no_data"%string ->
     exists (rate : Q) (n : nat),
       r_success_rate report = Some rate /\ 0 <= rate /\ rate <= 1 /\
       r_events_last_hour report = Some n /\
       (0 < n)%nat /\ (n <= List.length (events s))%nat).
Proof.
  destruct (window w (events s)) as [|e recent] eqn:Hwin.
  - unfold get_status_report. run.
    destruct (last_hour_run (events s) s w) as [w' ->]. cbn. rewrite Hwin.
    do 2 eexists. split; [reflexivity|]. cbn. split; [auto|].
    intros H. now elim H.
  - destruct (get_status_report_run s w e recent Hwin)
      as (report & w' & E & Hr & Hn & Hs).
    exists report, w'. split; [exact E|]. split.
    + rewrite Hs.
      destruct (rate_limit_detected s); [cbn; auto|].
      destruct (Qltb (9 # 10) _); [cbn; auto|].
      destruct (Qltb (7 # 10) _); cbn; auto 6.
    + intros _. do 2 eexists. split; [exact Hr|].
      pose proof (len_cons_pos e recent) as Hpos.
      pose proof (len_nonneg (filter is_success (e :: recent))) as H0.
      pose proof (len_filter_le is_success (e :: recent)) as H1.
      split; [|split; [|split; [exact Hn|]]].
      * apply Qle_shift_div_l; [exact Hpos | lra].
      * apply Qle_shift_div_r; [exact Hpos | lra].
      * pose proof (window_length w (events s)) as L. rewrite Hwin in L.
        cbn [List.length] in *. lia.
Qed.

(** X22. With the flag not set: a last-hour window that holds successes only is
    reported [optimal], one that holds no success is reported
    [problematic]. *)
Theorem report_extremes (s : SmartAnalyzer) (w : World)
        (some_data : window w (events s) <> [])
        (flag_clear : rate_limit_detected s = false) :
  exists (report : StatusReport) (w' : World),
    get_status_report s w = (Return report, s, w') /\
    (Forall (fun e => is_success e = true) (window w (events s)) ->
     status report = "optimal"%string) /\
    (Forall (fun e => is_success e = false) (window w (events s)) ->
     status report = "problematic"%string).
Proof.
  destruct (window w (events s)) as [|e recent] eqn:Hwin; [now elim some_data|].
  destruct (get_status_report_run s w e recent Hwin)
    as (report & w' & E & _ & _ & Hs).
  rewrite flag_clear in Hs.
  exists report, w'. split; [exact E|].
  pose proof (len_cons_pos e recent) as Hpos.
  split; intros Hall; rewrite Hs.
  - assert (F : filter is_success (e :: recent) = e :: recent).
    { apply forallb_filter_id. apply forallb_forall.
      intros x Hx. revert x Hx. now apply Forall_forall. }
    rewrite F.
    assert (R : Qltb (9 # 10) (len (e :: recent) / len (e :: recent)) = true).
    { apply Qltb_lt. apply Qlt_shift_div_l; [exact Hpos | lra]. }
    now rewrite R.
  - assert (F : filter is_success (e :: recent) = []).
    { clear - Hall. induction Hall as [|x l Hx _ IH]; [reflexivity|].
      cbn. now rewrite Hx. }
    rewrite F.
    assert (R9 : Qltb (9 # 10) (len (@nil RateLimitEvent) / len (e :: recent)) = false).
    { apply Qltb_ge. apply Qle_shift_div_r; [exact Hpos|].
      change (len (@nil RateLimitEvent)) with 0. lra. }
    assert (R7 : Qltb (7 # 10) (len (@nil RateLimitEvent) / len (e :: recent)) = false).
    { apply Qltb_ge. apply Qle_shift_div_r; [exact Hpos|].
      change (len (@nil RateLimitEvent)) with 0. lra. }
    now rewrite R9, R7.
Qed.

(** An instance: one success recorded and reported while the clock stands. *)
Lemma report_extremes_witness :
  let s := set_events [mkEvent 1000 "success" 3 1 ""] fresh in
  window still_world (events s) <> [] /\ rate_limit_detected s = false /\
  exists (report : StatusReport) (w' : World),
    get_status_report s still_world = (Return report, s, w') /\
    (Forall (fun e => is_success e = true) (window still_world (events s)) ->
     status report = "optimal"%string) /\
    (Forall (fun e => is_success e = false) (window still_world (events s)) ->
     status report = "problematic"%string).
Proof.
  cbv zeta.
  assert (A : window still_world (events (set_events [mkEvent 1000 "success" 3 1 ""] fresh))
              <> []) by (cbn; discriminate).
  split; [exact A|]. split; [reflexivity|].
  exact (report_extremes (set_events [mkEvent 1000 "success" 3 1 ""] fresh)
                         still_world A eq_refl).
Defined.

(** ** Session files *)

Lemma string_length_append (a b : string) :
  String.length (a ++ b) = (String.length a + String.length b)%nat.
Proof.
  induction a as [|c a IH]; cbn; [reflexivity | now rewrite IH].
Qed.

Lemma string_append_cancel_l (a b c : string) :
  (a ++ b = a ++ c)%string -> b = c.
Proof.
  induction a as [|x a IH]; cbn; intros H; [exact H|].
  injection H as H. now apply IH.
Qed.

Lemma string_append_cancel_r (a b c : string) :
  (a ++ c = b ++ c)%string -> a = b.
Proof.
  revert b. induction a as [|x a IH]; intros [|y b] H; cbn in H.
  - reflexivity.
  - apply (f_equal String.length) in H. cbn in H.
    rewrite string_length_append in H. lia.
  - apply (f_equal String.length) in H. cbn in H.
    rewrite string_length_append in H. lia.
  - injection H as -> H. f_equal. now apply IH.
Qed.

(** X23. The session file of a username is [sessions/<username>_session], except
    for a username that starts with [/], whose session file is the absolute
    path [<username>_session] outside the sessions directory; and two
    different usernames never share a session file. *)
Theorem session_files_are_distinct (u v : string) :
  (AppConfig.startswith_sep u = false ->
   AppConfig.get_session_file u = "sessions/" ++ u ++ "_session")%string /\
  (AppConfig.startswith_sep u = true ->
   AppConfig.get_session_file u = u ++ "_session")%string /\
  (AppConfig.get_session_file u = AppConfig.get_session_file v -> u = v).
Proof.
  assert (F : forall x,
             AppConfig.get_session_file x =
             if AppConfig.startswith_sep x then (x ++ "_session")%string
             else ("sessions/" ++ x ++ "_session")%string).
  { intros [|c x]; [reflexivity|].
    unfold AppConfig.get_session_file, AppConfig.os_path_join. cbn.
    destruct (Ascii.eqb c "/"); reflexivity. }
  split; [intros H; now rewrite F, H|].
  split; [intros H; now rewrite F, H|].
  rewrite !F.
  destruct (AppConfig.startswith_sep u) eqn:Hu, (AppConfig.startswith_sep v) eqn:Hv;
    intros H.
  - now apply string_append_cancel_r in H.
  - destruct u as [|c u]; [discriminate|]. cbn in Hu, H.
    injection H as -> _. discriminate.
  - destruct v as [|c v]; [discriminate|]. cbn in Hv, H.
    injection H as <- _. discriminate.
  - apply string_append_cancel_l in H. now apply string_append_cancel_r in H.
Qed.

(** ** [_apply_limits] *)

Section ApplyLimits.

Context {M : Type}.
Implicit Types (x y : crawler.ContentItem M) (l items : list (crawler.ContentItem M)).

Lemma insert_newest_perm x l : Permutation (crawler.insert_newest x l) (x :: l).
Proof.
  induction l as [|y l IH]; cbn; [reflexivity|].
  destruct (Qltb _ _); [|reflexivity].
  rewrite IH. apply perm_swap.
Qed.

Lemma sort_newest_first_perm l : Permutation (crawler.sort_newest_first l) l.
Proof.
  induction l as [|x l IH]; cbn; [reflexivity|].
  rewrite insert_newest_perm. now constructor.
Qed.

Lemma insert_newest_sorted x l :
  StronglySorted newer_or_same l ->
  StronglySorted newer_or_same (crawler.insert_newest x l).
Proof.
  induction 1 as [|y l Hs IH Hy]; cbn; [repeat constructor|].
  destruct (Qltb (crawler.timestamp x) (crawler.timestamp y)) eqn:E.
  - apply Qltb_lt in E. constructor; [exact IH|].
    rewrite insert_newest_perm. constructor; [|exact Hy].
    unfold newer_or_same. lra.
  - apply Qltb_ge in E. constructor; [now constructor|].
    constructor; [exact E|].
    eapply Forall_impl; [|exact Hy]. unfold newer_or_same. intros z Hz. lra.
Qed.

Lemma sort_newest_first_sorted l :
  StronglySorted newer_or_same (crawler.sort_newest_first l).
Proof.
  induction l as [|x l IH]; cbn; [constructor | now apply insert_newest_sorted].
Qed.

Lemma insert_newest_stable (q : Q) x l :
  filter (same_time q) (crawler.insert_newest x l) = filter (same_time q) (x :: l).
Proof.
  induction l as [|y l IH]; [reflexivity|].
  cbn [crawler.insert_newest].
  destruct (Qltb (crawler.timestamp x) (crawler.timestamp y)) eqn:E; [|reflexivity].
  apply Qltb_lt in E.
  cbn [filter] in *. rewrite IH.
  destruct (same_time q x) eqn:Px, (same_time q y) eqn:Py; try reflexivity.
  unfold same_time in *. apply Qeq_bool_iff in Px, Py.
  rewrite Px, Py in E. now apply Qlt_irrefl in E.
Qed.

Lemma sort_newest_first_stable (q : Q) l :
  filter (same_time q) (crawler.sort_newest_first l) = filter (same_time q) l.
Proof.
  induction l as [|x l IH]; [reflexivity|].
  cbn [crawler.sort_newest_first]. rewrite insert_newest_stable.
  cbn [filter]. now rewrite IH.
Qed.

(** What [_apply_limits] returns is a front part of the list it was given, or
    of that list sorted. *)
Lemma _apply_limits_is_a_front items (limits : crawler.Limits) :
  exists k : nat,
    crawler._apply_limits items limits =
    firstn k (if dict_get (crawler.newest_first limits) false
              then crawler.sort_newest_first items else items).
Proof.
  unfold crawler._apply_limits. cbv zeta.
  destruct items as [|x items].
  - exists 0%nat. destruct (dict_get _ _); reflexivity.
  - generalize (if dict_get (crawler.newest_first limits) false
                then crawler.sort_newest_first (x :: items) else x :: items).
    intros l. destruct (crawler.total_is_set limits).
    + unfold crawler.slice_to. destruct (0 <=? _)%Z; eexists; reflexivity.
    + exists (List.length l). now rewrite firstn_all.
Qed.

(** X24. With a positive [total], [_apply_limits] returns [total] items, or all of
    them when there are fewer; with no [total], or the total 0, it returns as
    many as it was given; and a negative [total] removes that many items from
    the end. *)
Theorem apply_limits_length items (limits : crawler.Limits) :
  let n := List.length (crawler._apply_limits items limits) in
  match crawler.total limits with
  | None => n = List.length items
  | Some t =>
      ((0 < t)%Z -> n = Nat.min (Z.to_nat t) (List.length items)) /\
      (t = 0%Z -> n = List.length items) /\
      ((t < 0)%Z -> n = (List.length items - Z.to_nat (- t))%nat)
  end.
Proof.
  cbv zeta. unfold crawler._apply_limits, crawler.total_is_set.
  assert (L : List.length (if dict_get (crawler.newest_first limits) false
                           then crawler.sort_newest_first items else items)
              = List.length items).
  { destruct (dict_get _ _); [|reflexivity].
    apply Permutation_length, sort_newest_first_perm. }
  destruct items as [|x items].
  - destruct (crawler.total limits) as [t|]; cbn; [|reflexivity].
    repeat split; intros; lia.
  - cbv zeta. revert L.
    generalize (if dict_get (crawler.newest_first limits) false
                then crawler.sort_newest_first (x :: items) else x :: items).
    intros l L.
    destruct (crawler.total limits) as [t|]; cbn [dict_get]; [|exact L].
    unfold crawler.slice_to.
    destruct (Z.eqb_spec t 0) as [-> | Ht]; cbn [negb].
    + repeat split; intros; lia.
    + destruct (Z.leb_spec 0 t); rewrite length_firstn, L;
        repeat split; intros; lia.
Qed.

(** X25. [_apply_limits] invents nothing and repeats nothing: the items it returns
    together with some left-over items are a rearrangement of the items it
    was given. *)
Theorem apply_limits_keeps_items items (limits : crawler.Limits) :
  exists dropped,
    Permutation (crawler._apply_limits items limits ++ dropped) items.
Proof.
  destruct (_apply_limits_is_a_front items limits) as [k ->].
  destruct (dict_get (crawler.newest_first limits) false).
  - exists (skipn k (crawler.sort_newest_first items)).
    rewrite firstn_skipn. apply sort_newest_first_perm.
  - exists (skipn k items). now rewrite firstn_skipn.
Qed.

(** X26. With [newest_first] set, the items returned are in order from newest to
    oldest, every item left out is no newer than every item returned, and
    items with the same timestamp keep the order they were crawled in. *)
Theorem apply_limits_newest_first items (limits : crawler.Limits)
        (wanted : crawler.newest_first limits = Some true) :
  let kept := crawler._apply_limits items limits in
  StronglySorted newer_or_same kept /\
  (exists dropped,
      Permutation (kept ++ dropped) items /\
      forall x y, In x kept -> In y dropped -> newer_or_same x y) /\
  (forall q : Q, exists later,
        filter (same_time q) items = filter (same_time q) kept ++ later).
Proof.
  cbv zeta.
  destruct (_apply_limits_is_a_front items limits) as [k ->].
  rewrite wanted. cbn [dict_get].
  pose proof (sort_newest_first_sorted items) as S.
  rewrite <- (firstn_skipn k (crawler.sort_newest_first items)) in S.
  split; [|split].
  - clear - S. revert S.
    generalize (skipn k (crawler.sort_newest_first items)).
    induction (firstn k (crawler.sort_newest_first items)) as [|x l IH];
      intros rest S; [constructor|].
    cbn in S. inversion S as [|? ? S' F]; subst.
    constructor; [now apply (IH rest)|].
    now apply Forall_app in F.
  - exists (skipn k (crawler.sort_newest_first items)). split.
    + rewrite firstn_skipn. apply sort_newest_first_perm.
    + clear - S. revert S.
      generalize (skipn k (crawler.sort_newest_first items)).
      induction (firstn k (crawler.sort_newest_first items)) as [|z l IH];
        intros rest S x y Hx Hy; [contradiction|].
      cbn in S. inversion S as [|? ? S' F]; subst.
      destruct Hx as [<- | Hx].
      * apply Forall_app in F. destruct F as [_ F].
        revert y Hy. now apply Forall_forall.
      * now apply (IH rest S').
  - intros q. exists (filter (same_time q) (skipn k (crawler.sort_newest_first items))).
    rewrite <- filter_app, firstn_skipn. symmetry. apply sort_newest_first_stable.
Qed.

(** X27. Without [newest_first], the items returned are the first ones of the
    list, in the order they were crawled in; with no [total] as well, the
    list comes back as it was given. *)
Theorem apply_limits_in_crawl_order items (limits : crawler.Limits)
        (unsorted : crawler.newest_first limits = None \/
                    crawler.newest_first limits = Some false) :
  (exists k, crawler._apply_limits items limits = firstn k items) /\
  (crawler.total limits = None -> crawler._apply_limits items limits = items).
Proof.
  assert (E : dict_get (crawler.newest_first limits) false = false)
    by (destruct unsorted as [-> | ->]; reflexivity).
  split.
  - destruct (_apply_limits_is_a_front items limits) as [k ->].
    rewrite E. now exists k.
  - intros Ht. unfold crawler._apply_limits, crawler.total_is_set.
    rewrite E, Ht. now destruct items.
Qed.

End ApplyLimits.

(** An instance: the two newest of three items. *)
Lemma apply_limits_length_witness :
  (0 < 2)%Z /\
  List.length (crawler._apply_limits three_items (crawler.mkLimits (Some 2%Z) (Some true)))
  = Nat.min (Z.to_nat 2) (List.length three_items).
Proof.
  split; [lia|].
  exact (proj1 (apply_limits_length three_items
                  (crawler.mkLimits (Some 2%Z) (Some true))) ltac:(lia)).
Defined.

Lemma apply_limits_newest_first_witness :
  crawler.newest_first (crawler.mkLimits (Some 2%Z) (Some true)) = Some true /\
  StronglySorted newer_or_same
    (crawler._apply_limits three_items (crawler.mkLimits (Some 2%Z) (Some true))).
Proof.
  split; [reflexivity|].
  exact (proj1 (apply_limits_newest_first three_items
                  (crawler.mkLimits (Some 2%Z) (Some true)) eq_refl)).
Defined.

Lemma apply_limits_in_crawl_order_witness :
  (crawler.newest_first (crawler.mkLimits None None) = None \/
   crawler.newest_first (crawler.mkLimits None None) = Some false) /\
  crawler._apply_limits three_items (crawler.mkLimits None None) = three_items.
Proof.
  assert (H : crawler.newest_first (crawler.mkLimits None None) = None \/
              crawler.newest_first (crawler.mkLimits None None) = Some false)
    by now left.
  split; [exact H|].
  exact (proj2 (apply_limits_in_crawl_order three_items
                  (crawler.mkLimits None None) H) eq_refl).
Defined.

(** ** The type test of [_crawl_posts] *)

Lemma post_type_is_singular (is_video : bool) (is_reel : option bool) :
  In (crawler.post_type_of is_video is_reel) ["photo"; "video"; "reel"]%string.
Proof.
  unfold crawler.post_type_of.
  destruct is_video; [destruct (dict_get is_reel false)|]; cbn; auto.
Qed.

(** X28. For content types taken from the menu ([photos], [reels], [videos],
    [stories]) the type of a post is never among them, so whether
    [_crawl_posts] skips a post does not depend on the post; and under the
    condition on which [crawl_profile] calls [_crawl_posts] no post is
    skipped: asking for photos only still collects videos and reels. *)
Theorem posts_are_not_filtered_by_type (content_types : list string)
        (is_video : bool) (is_reel : option bool)
        (from_menu : Forall (fun t => In t menu_types) content_types) :
  let post_type := crawler.post_type_of is_video is_reel in
  crawler.contains post_type content_types = false /\
  crawler.skips_post post_type content_types
  = negb (crawler.asks_for_posts content_types) /\
  (crawler.asks_for_posts content_types = true ->
   crawler.skips_post post_type content_types = false).
Proof.
  cbv zeta.
  assert (C : crawler.contains (crawler.post_type_of is_video is_reel) content_types
              = false).
  { unfold crawler.contains.
    pose proof (post_type_is_singular is_video is_reel) as P.
    induction from_menu as [|t l Ht _ IH]; [reflexivity|].
    cbn [existsb]. rewrite IH, orb_false_r.
    apply String.eqb_neq. intros E. rewrite E in P.
    unfold menu_types in Ht. cbn in P, Ht.
    destruct Ht as [<- | [<- | [<- | [<- | []]]]];
      destruct P as [P | [P | [P | []]]]; discriminate. }
  unfold crawler.skips_post. rewrite C. cbn [negb andb].
  repeat split. intros ->. reflexivity.
Qed.

(** An instance: a video when only photos were asked for. *)
Lemma posts_are_not_filtered_by_type_witness :
  Forall (fun t => In t menu_types) ["photos"%string] /\
  crawler.asks_for_posts ["photos"%string] = true /\
  crawler.skips_post (crawler.post_type_of true None) ["photos"%string] = false.
Proof.
  assert (H : Forall (fun t => In t menu_types) ["photos"%string]).
  { constructor; [cbn; auto | constructor]. }
  split; [exact H|]. split; [reflexivity|].
  exact (proj2 (proj2 (posts_are_not_filtered_by_type ["photos"%string] true None H))
               eq_refl).
Defined.

(** ** The counters and the log *)

Lemma trailing_snoc {A} (p : A -> bool) (l : list A) (x : A) :
  trailing p (l ++ [x]) = if p x then S (trailing p l) else O.
Proof.
  unfold trailing. rewrite rev_app_distr. reflexivity.
Qed.

(** X9. Fed outcomes of the four documented kinds from the fresh state, the
    counters are the run lengths at the end of the log:
    [consecutive_successes] is the number of [success] events the log ends
    with, [consecutive_failures] the number of other events it ends with. *)
Theorem counters_are_run_lengths (calls : list Call) (w : World)
        (kinds : Forall (fun c => In (c_event_type c) outcome_kinds) calls) :
  let s := self_of (record_events calls fresh w) in
  consecutive_successes s = Z.of_nat (trailing is_success (events s)) /\
  consecutive_failures s
  = Z.of_nat (trailing (fun e => negb (is_success e)) (events s)).
Proof.
  cbv zeta.
  assert (G : forall l s w',
             Forall (fun c => In (c_event_type c) outcome_kinds) l ->
             consecutive_successes s = Z.of_nat (trailing is_success (events s)) ->
             consecutive_failures s
             = Z.of_nat (trailing (fun e => negb (is_success e)) (events s)) ->
             let s' := self_of (record_events l s w') in
             consecutive_successes s' = Z.of_nat (trailing is_success (events s')) /\
             consecutive_failures s'
             = Z.of_nat (trailing (fun e => negb (is_success e)) (events s'))).
  { induction l as [|c l IH]; intros s w' Hk Hs Hf; cbv zeta.
    - split; assumption.
    - inversion Hk as [|? ? Hc Hl]; subst.
      rewrite record_events_cons. unfold record_call.
      destruct (record_event_attributes (c_event_type c) (c_delay_used c)
                  (c_response_time c) (c_error_message c) s w')
        as (Ev & Es & Ef & _).
      unfold is_success in *.
      apply IH; [exact Hl | |]; rewrite Ev, trailing_snoc;
        cbn [event_type]; [rewrite Es | rewrite Ef]; unfold counted;
        unfold outcome_kinds in Hc;
        destruct Hc as [<- | [<- | [<- | [<- | []]]]];
        cbn -[trailing Z.of_nat Z.add]; lia. }
  apply G; [exact kinds | reflexivity | reflexivity].
Qed.

(** An instance: two successes after an error. *)
Lemma counters_are_run_lengths_witness :
  let calls := [mkCall "error" 0 1 "boom"; mkCall "success" 3 1 "";
                mkCall "success" 3 1 ""] in
  Forall (fun c => In (c_event_type c) outcome_kinds) calls /\
  consecutive_successes (self_of (record_events calls fresh still_world))
  = Z.of_nat (trailing is_success
                       (events (self_of (record_events calls fresh still_world)))).
Proof.
  cbv zeta.
  assert (H : Forall (fun c => In (c_event_type c) outcome_kinds)
                     [mkCall "error" 0 1 "boom"; mkCall "success" 3 1 "";
                      mkCall "success" 3 1 ""]).
  { repeat (apply Forall_cons; [cbn; auto 6|]). apply Forall_nil. }
  split; [exact H|].
  exact (proj1 (counters_are_run_lengths _ still_world H)).
Defined.

(** ** Further instances *)

(** An instance: the batch break right after a [rate_limit] on the fresh
    state. *)
Lemma batch_delay_follows_the_flag_witness :
  exists v : Q,
    get_batch_delay (self_of (record_event "rate_limit" 900 0 "" fresh still_world))
                    (world_of (record_event "rate_limit" 900 0 "" fresh still_world))
    = (Return v, self_of (record_event "rate_limit" 900 0 "" fresh still_world),
       world_of (record_event "rate_limit" 900 0 "" fresh still_world)) /\
    v == 450.
Proof.
  destruct (batch_delay_follows_the_flag "rate_limit" 900 0 "" fresh still_world)
    as (v & E & H & _).
  exists v. split; [exact E | exact (H eq_refl)].
Defined.

(** An instance: the report on a log of one success. *)
Lemma report_numbers_are_sane_witness :
  exists (report : StatusReport) (w' : World),
    get_status_report (set_events [mkEvent 1000 "success" 3 1 ""] fresh) still_world
    = (Return report, set_events [mkEvent 1000 "success" 3 1 ""] fresh, w') /\
    In (status report)
       ["no_data"; "rate_limited"; "optimal"; "cautious"; "problematic"]%string.
Proof.
  destruct (report_numbers_are_sane
              (set_events [mkEvent 1000 "success" 3 1 ""] fresh) still_world)
    as (report & w' & E & H & _).
  exists report, w'. split; [exact E | exact H].
Defined.

(** An instance: the session file of the username [alice]. *)
Lemma session_files_are_distinct_witness :
  AppConfig.startswith_sep "alice" = false /\
  AppConfig.get_session_file "alice" = "sessions/alice_session"%string.
Proof.
  split; [reflexivity|].
  exact (proj1 (session_files_are_distinct "alice" "bob") eq_refl).
Defined.
